(** * PublicVolume: mount / unmount / format lifecycle of a public volume

    Shallow embedding of [vold/PublicVolume.cpp].  The controller is
    sequential C++ that talks to the operating system; here every call is a
    pure function from the volume object, the system property store and an
    oracle (what the operating system answers to each call) to the new
    volume object, the new property store, the trace of external calls that
    were issued and the way the call ended. *)

From Stdlib Require Import ZArith NArith DecimalString.
From stdpp Require Import gmap strings list fin_maps sorting.

Local Open Scope Z_scope.
Local Open Scope string_scope.
Local Open Scope list_scope.

(** ** Base types *)

(** [status_t] and [pid_t] are C [int]s; only the values below are used. *)
Definition status_t := Z.
Definition pid_t := Z.

Definition OK : status_t := 0.
Definition EIO : Z := 5.
Definition EEXIST : Z := 17.
Definition EINVAL : Z := 22.
Definition SIGTERM : Z := 15.

(** Modelled from the spec: the [dev_t] type and the [major]/[minor] macros
    come from the system headers; the data model gives a device as its
    (major, minor) pair. *)
Record dev_t := makedev { major : N; minor : N }.

#[global] Instance dev_t_eq_dec : EqDecision dev_t.
Proof. solve_decision. Defined.

(** Mount flags of [VolumeBase::MountFlags] (declared in VolumeBase.h). *)
Definition kPrimary : Z := 1.
Definition kVisible : Z := 2.

(** ** String formatting *)

(** [%u] of [StringPrintf]: an [unsigned int], so the argument modulo 2^32,
    in decimal. *)
Definition fmt_u (n : N) : string :=
  NilEmpty.string_of_uint (N.to_uint (n mod 2 ^ 32)%N).

(** [std::to_string] on an [int]. *)
Definition to_string (z : Z) : string :=
  NilEmpty.string_of_int (Z.to_int z).

(** ** The volume object *)

Record PublicVolume := mkPublicVolume {
  mId : string;
  mMountFlags : Z;
  mMountUserId : Z;
  mDevice : dev_t;
  mDevPath : string;
  mFusePid : pid_t;
  mFsType : string;
  mFsUuid : string;
  mFsLabel : string;
  mRawPath : string;
  mFuseDefault : string;
  mFuseRead : string;
  mFuseWrite : string
}.

Definition getId (v : PublicVolume) : string := mId v.
Definition getMountFlags (v : PublicVolume) : Z := mMountFlags v.
Definition getMountUserId (v : PublicVolume) : Z := mMountUserId v.

(** [PublicVolume::PublicVolume(dev_t device)].  The base-class fields start
    at the defaults of [VolumeBase] (no mount flags, user -1), the strings
    are default-constructed. *)
Definition PublicVolume_new (device : dev_t) : PublicVolume :=
  let id := "public:" +:+ fmt_u (major device) +:+ ":" +:+ fmt_u (minor device) in
  {| mId := id;
     mMountFlags := 0;
     mMountUserId := -1;
     mDevice := device;
     mDevPath := "/dev/block/vold/" +:+ id;
     mFusePid := 0;
     mFsType := ""; mFsUuid := ""; mFsLabel := "";
     mRawPath := ""; mFuseDefault := ""; mFuseRead := ""; mFuseWrite := "" |}.

(** "Use UUID as stable name, if available": the same three lines open the
    path computation of [doMount] and the slot clean-up of [doUnmount]. *)
Definition stableName (v : PublicVolume) : string :=
  if decide (mFsUuid v = "") then getId v else mFsUuid v.

(** ** The system property store *)

(** Modelled from the spec: the hook slots are "read/written as global
    key-value entries; the concrete storage mechanism is an external
    collaborator" (the property service of libcutils, which is not part of
    this source unit).  A store is a finite map from keys to values;
    [property_get] falls back to the default for a missing or empty value
    and [property_get_bool] reads the usual spellings of a boolean.  The
    length limit of the property service on values is left out. *)
Abbreviation properties := (gmap string string).

Definition property_set (key value : string) (props : properties) : properties :=
  <[key := value]> props.

Definition property_get (props : properties) (key default : string) : string :=
  match props !! key with
  | Some v => if decide (v = "") then default else v
  | None => default
  end.

Definition property_get_bool (props : properties) (key : string) (default : bool) : bool :=
  let v := property_get props key "" in
  if decide (v ∈ ["0"; "n"; "no"; "false"; "off"]) then false
  else if decide (v ∈ ["1"; "y"; "yes"; "true"; "on"]) then true
  else default.

(** ** External calls *)

Inductive ResponseCode :=
  | VolumeFsTypeChanged
  | VolumeFsUuidChanged
  | VolumeFsLabelChanged.

Inductive fs_family := Vfat | Ntfs.

(** One constructor per external call the controller issues, with the
    arguments of the call. *)
Inductive event :=
  | EvReadMetadataUntrusted (devPath : string)
  | EvNotify (code : ResponseCode) (value : string)
  | EvCheck (fs : fs_family) (devPath : string)
  | EvSetInternalPath (path : string)
  | EvSetPath (path : string)
  | EvPrepareDir (path : string) (mode uid gid : Z)
  | EvMount (fs : fs_family) (source target : string)
            (ro remount executable : bool) (ownerUid ownerGid permMask : Z)
            (createLost : bool)
  | EvAccess (path : string) (mode : Z)
  | EvRename (from to : string)
  | EvMkdir (path : string) (mode : Z)
  | EvBindMount (source target : string)
  | EvGetDevice (path : string)
  | EvFork
  | EvExecl (path : string) (args : list string)
  | EvUsleep (usec : Z)
  | EvKill (pid : pid_t) (sig : Z)
  | EvWaitpid (pid : pid_t)
  | EvForceUnmount (path : string)
  | EvRmdir (path : string)
  | EvWipeBlockDevice (devPath : string)
  | EvFormat (fs : fs_family) (devPath : string) (numSectors : Z).

#[global] Instance fs_family_eq_dec : EqDecision fs_family.
Proof. solve_decision. Defined.

(** How a call of a member function ends: it returns a status; or (in the
    forked child) the process image is replaced by the translator or the
    child leaves through [_exit]; or the caller is still inside the
    readiness loop when the observation stops. *)
Inductive outcome :=
  | Returned (s : status_t)
  | Replaced
  | Exited (code : Z)
  | Polling.

Record run := mkRun {
  r_outcome : outcome;
  r_vol : PublicVolume;
  r_props : properties;
  r_trace : list event
}.

Definition kFusePath : string := "/system/bin/sdcard".
Definition kAsecPath : string := "/mnt/secure/asec".

Definition AID_ROOT : Z := 0.
Definition AID_MEDIA_RW : Z := 1023.
Definition F_OK : Z := 0.
Definition R_OK : Z := 4.
Definition X_OK : Z := 1.
(** The octal literals [0700] and [0007]. *)
Definition mode_0700 : Z := 448.
Definition mask_0007 : Z := 7.

(** What the operating system answers during one call of [doMount]. *)
Record mount_oracle := mkMountOracle {
  o_metadata_status : status_t;
  o_fsType : string;
  o_fsUuid : string;
  o_fsLabel : string;
  o_check : fs_family -> Z;
  o_prepare_dir : string -> Z;
  o_prepare_errno : Z;
  o_mount : fs_family -> Z;
  o_access : string -> Z -> Z;
  o_rename : Z;
  o_mkdir_interrupts : nat;
  o_mkdir : Z;
  o_mkdir_errno : Z;
  o_device_before : dev_t;
  o_fork : pid_t;
  o_fork_errno : Z;
  o_execl : option Z;
  o_device_poll : nat -> dev_t
}.

(** [TEMP_FAILURE_RETRY(call)] repeats the call while it is interrupted
    ([EINTR]); the oracle says how many times that happens before the call
    completes. *)
Definition temp_failure_retry (interrupts : nat) (call : event) : list event :=
  replicate (S interrupts) call.

(** A call whose return value the source drops. *)
Definition ignoring (result : Z) (call : event) : list event := [call].

(** ** Field updates *)

Definition set_metadata (fsType fsUuid fsLabel : string) (v : PublicVolume) : PublicVolume :=
  {| mId := mId v; mMountFlags := mMountFlags v; mMountUserId := mMountUserId v;
     mDevice := mDevice v; mDevPath := mDevPath v; mFusePid := mFusePid v;
     mFsType := fsType; mFsUuid := fsUuid; mFsLabel := fsLabel;
     mRawPath := mRawPath v; mFuseDefault := mFuseDefault v;
     mFuseRead := mFuseRead v; mFuseWrite := mFuseWrite v |}.

Definition set_paths (raw fuseDefault fuseRead fuseWrite : string) (v : PublicVolume)
  : PublicVolume :=
  {| mId := mId v; mMountFlags := mMountFlags v; mMountUserId := mMountUserId v;
     mDevice := mDevice v; mDevPath := mDevPath v; mFusePid := mFusePid v;
     mFsType := mFsType v; mFsUuid := mFsUuid v; mFsLabel := mFsLabel v;
     mRawPath := raw; mFuseDefault := fuseDefault;
     mFuseRead := fuseRead; mFuseWrite := fuseWrite |}.

Definition set_fusePid (pid : pid_t) (v : PublicVolume) : PublicVolume :=
  {| mId := mId v; mMountFlags := mMountFlags v; mMountUserId := mMountUserId v;
     mDevice := mDevice v; mDevPath := mDevPath v; mFusePid := pid;
     mFsType := mFsType v; mFsUuid := mFsUuid v; mFsLabel := mFsLabel v;
     mRawPath := mRawPath v; mFuseDefault := mFuseDefault v;
     mFuseRead := mFuseRead v; mFuseWrite := mFuseWrite v |}.

(** [VolumeBase::setMountFlags] and [VolumeBase::setMountUserId], which the
    volume manager calls between the construction and the first mount. *)
Definition setMountFlags (flags : Z) (v : PublicVolume) : PublicVolume :=
  {| mId := mId v; mMountFlags := flags; mMountUserId := mMountUserId v;
     mDevice := mDevice v; mDevPath := mDevPath v; mFusePid := mFusePid v;
     mFsType := mFsType v; mFsUuid := mFsUuid v; mFsLabel := mFsLabel v;
     mRawPath := mRawPath v; mFuseDefault := mFuseDefault v;
     mFuseRead := mFuseRead v; mFuseWrite := mFuseWrite v |}.

Definition setMountUserId (user : Z) (v : PublicVolume) : PublicVolume :=
  {| mId := mId v; mMountFlags := mMountFlags v; mMountUserId := user;
     mDevice := mDevice v; mDevPath := mDevPath v; mFusePid := mFusePid v;
     mFsType := mFsType v; mFsUuid := mFsUuid v; mFsLabel := mFsLabel v;
     mRawPath := mRawPath v; mFuseDefault := mFuseDefault v;
     mFuseRead := mFuseRead v; mFuseWrite := mFuseWrite v |}.

(** ** Mount *)

(** [PublicVolume::readMetadata]: the reader overwrites the three metadata
    strings, then the three notifications go out whatever the status. *)
Definition readMetadata (o : mount_oracle) (v : PublicVolume)
  : status_t * PublicVolume * list event :=
  let v' := set_metadata (o_fsType o) (o_fsUuid o) (o_fsLabel o) v in
  (o_metadata_status o, v',
   [EvReadMetadataUntrusted (mDevPath v);
    EvNotify VolumeFsTypeChanged (mFsType v');
    EvNotify VolumeFsUuidChanged (mFsUuid v');
    EvNotify VolumeFsLabelChanged (mFsLabel v')]).

(** [PublicVolume::initAsecStage]. *)
Definition initAsecStage (o : mount_oracle) (v : PublicVolume) : status_t * list event :=
  let legacyPath := mRawPath v +:+ "/android_secure" in
  let securePath := mRawPath v +:+ "/.android_secure" in
  let recover :=
    EvAccess legacyPath (Z.lor R_OK X_OK) ::
    (if decide (o_access o legacyPath (Z.lor R_OK X_OK) = 0) then
       EvAccess securePath (Z.lor R_OK X_OK) ::
       (if decide (o_access o securePath (Z.lor R_OK X_OK) = 0) then []
        else ignoring (o_rename o) (EvRename legacyPath securePath))
     else []) in
  let mk := temp_failure_retry (o_mkdir_interrupts o) (EvMkdir securePath mode_0700) in
  if decide (o_mkdir o = 0) then
    (OK, recover ++ mk ++ [EvBindMount securePath kAsecPath])
  else if decide (o_mkdir_errno o = EEXIST) then
    (OK, recover ++ mk ++ [EvBindMount securePath kAsecPath])
  else
    (- o_mkdir_errno o, recover ++ mk).

(** The chain [fs_prepare_dir(..) || fs_prepare_dir(..) || ...]: the
    directories are prepared in order up to the first failure. *)
Fixpoint prepare_dirs (o : mount_oracle) (paths : list string) : bool * list event :=
  match paths with
  | [] => (false, [])
  | p :: rest =>
      if decide (o_prepare_dir o p = 0) then
        let '(failed, tr) := prepare_dirs o rest in
        (failed, EvPrepareDir p mode_0700 AID_ROOT AID_ROOT :: tr)
      else (true, [EvPrepareDir p mode_0700 AID_ROOT AID_ROOT])
  end.

(** The three trigger blocks ([OFFLINE_OTAPROC], [STARTUP_SERVICE],
    [CUSTCFG_UPGRADE]); a block that fires jumps to [uevent_handled], any
    other falls through to the next block. *)
Definition cust_block (o : mount_oracle) (stable custPath : string) (cust_trigger : bool)
    (props : properties) : properties * list event :=
  if cust_trigger then (props, [])
  else if decide (o_access o custPath F_OK = 0) then
    (property_set "sys.cust.trigger" "1"
       (property_set "sys.cust.storage" stable
          (property_set "sys.cust.path" custPath props)),
     [EvAccess custPath F_OK])
  else (props, [EvAccess custPath F_OK]).

Definition startup_block (o : mount_oracle) (stable startupPath custPath : string)
    (startup_trigger cust_trigger : bool) (props : properties)
  : properties * list event :=
  if startup_trigger then cust_block o stable custPath cust_trigger props
  else if decide (o_access o startupPath F_OK = 0) then
    (property_set "sys.startup.trigger" "1"
       (property_set "sys.startup.storage" stable
          (property_set "sys.startup.path" startupPath props)),
     [EvAccess startupPath F_OK])
  else
    let '(props', tr) := cust_block o stable custPath cust_trigger props in
    (props', EvAccess startupPath F_OK :: tr).

Definition update_block (o : mount_oracle) (stable updatePath startupPath custPath : string)
    (update_trigger startup_trigger cust_trigger : bool) (props : properties)
  : properties * list event :=
  if update_trigger then
    startup_block o stable startupPath custPath startup_trigger cust_trigger props
  else if decide (o_access o updatePath F_OK = 0) then
    (property_set "sys.update.trigger" "1"
       (property_set "sys.update.path" updatePath
          (property_set "sys.update.storage" stable props)),
     [EvAccess updatePath F_OK])
  else
    let '(props', tr) :=
      startup_block o stable startupPath custPath startup_trigger cust_trigger props in
    (props', EvAccess updatePath F_OK :: tr).

(** The readiness loop [while (before == GetDevice(mFuseWrite)) usleep(50000)].
    The source puts no bound on it; [fuel] bounds how many iterations are
    observed, [k] counts the polls made so far. *)
Fixpoint wait_for_fuse (o : mount_oracle) (before : dev_t) (path : string)
    (fuel k : nat) : outcome * list event :=
  match fuel with
  | O => (Polling, [])
  | S fuel' =>
      if decide (before = o_device_poll o k) then
        let '(out, tr) := wait_for_fuse o before path fuel' (S k) in
        (out, EvGetDevice path :: EvUsleep 50000 :: tr)
      else (Returned OK, [EvGetDevice path])
  end.

(** The arguments of the translator, as the child passes them to [execl]. *)
Definition fuse_args (v : PublicVolume) (stable : string) : list string :=
  if decide (Z.land (getMountFlags v) kPrimary = 0) then
    [kFusePath; "-u"; "1023"; "-g"; "1023"; "-U"; to_string (getMountUserId v);
     mRawPath v; stable]
  else
    [kFusePath; "-u"; "1023"; "-g"; "1023"; "-U"; to_string (getMountUserId v);
     "-w"; mRawPath v; stable].

(** Lines from [uevent_handled:] to the end of [doMount]: the secure-storage
    staging, the visibility test, and the spawn of the translator. *)
Definition doMount_spawn (o : mount_oracle) (fuel : nat) (v : PublicVolume)
    (stable : string) (props : properties) (tr : list event) : run :=
  let tr :=
    if decide (Z.land (getMountFlags v) kPrimary = 0) then tr
    else (tr ++ snd (initAsecStage o v)) in
  if decide (Z.land (getMountFlags v) kVisible = 0) then
    (* Not visible to apps, so no need to spin up FUSE *)
    mkRun (Returned OK) v props tr
  else
    let before := o_device_before o in
    let tr := (tr ++ [EvGetDevice (mFuseWrite v); EvFork]) in
    let v := set_fusePid (o_fork o) v in
    if decide (mFusePid v = 0) then
      let tr := (tr ++ [EvExecl kFusePath (fuse_args v stable)]) in
      match o_execl o with
      | None => mkRun Replaced v props tr
      | Some _ => mkRun (Exited 1) v props tr
      end
    else if decide (mFusePid v = -1) then
      mkRun (Returned (- o_fork_errno o)) v props tr
    else
      let '(out, polls) := wait_for_fuse o before (mFuseWrite v) fuel 0 in
      mkRun out v props (tr ++ polls).

(** [PublicVolume::doMount]. *)
Definition doMount (o : mount_oracle) (fuel : nat) (v : PublicVolume) (props : properties)
  : run :=
  let '(_, v, tr) := readMetadata o v in
  if decide (mFsType v ≠ "vfat" ∧ mFsType v ≠ "ntfs") then
    mkRun (Returned (- EIO)) v props tr
  else
    let probe : option bool * list event :=
      if decide (o_check o Vfat = 0) then (Some false, [EvCheck Vfat (mDevPath v)])
      else if decide (o_check o Ntfs = 0) then
        (Some true, [EvCheck Vfat (mDevPath v); EvCheck Ntfs (mDevPath v)])
      else (None, [EvCheck Vfat (mDevPath v); EvCheck Ntfs (mDevPath v)]) in
    let tr := (tr ++ snd probe) in
    match fst probe with
    | None => mkRun (Returned (- EIO)) v props tr
    | Some ntfs =>
        let stable := stableName v in
        let v := set_paths ("/mnt/media_rw/" +:+ stable)
                           ("/mnt/runtime/default/" +:+ stable)
                           ("/mnt/runtime/read/" +:+ stable)
                           ("/mnt/runtime/write/" +:+ stable) v in
        let updatePath := mRawPath v +:+ "/OTA/update.zip" in
        let update_trigger := property_get_bool props "sys.update.trigger" false in
        let startupPath := mRawPath v +:+ "/startup/start_up.sh" in
        let startup_trigger := property_get_bool props "sys.startup.trigger" false in
        let custPath := mRawPath v +:+ "/cust/cust_update.zip" in
        let cust_trigger := property_get_bool props "sys.cust.trigger" false in
        let tr :=
          (tr ++ [EvSetInternalPath (mRawPath v);
                  EvSetPath (if decide (Z.land (getMountFlags v) kVisible = 0)
                             then mRawPath v else "/storage/" +:+ stable)]) in
        let '(failed, dirs) :=
          prepare_dirs o [mRawPath v; mFuseDefault v; mFuseRead v; mFuseWrite v] in
        let tr := (tr ++ dirs) in
        if failed then mkRun (Returned (- o_prepare_errno o)) v props tr
        else
          let mount_call fs :=
            EvMount fs (mDevPath v) (mRawPath v) false false false
                    AID_MEDIA_RW AID_MEDIA_RW mask_0007 true in
          let '(abort, mnt) :=
            if ntfs then
              (* a failure of Ntfs::doMount is logged, nothing else *)
              (false, ignoring (o_mount o Ntfs) (mount_call Ntfs))
            else (bool_decide (o_mount o Vfat ≠ 0), [mount_call Vfat]) in
          let tr := (tr ++ mnt) in
          if abort then mkRun (Returned (- EIO)) v props tr
          else
            let '(props, hooks) :=
              update_block o stable updatePath startupPath custPath
                           update_trigger startup_trigger cust_trigger props in
            doMount_spawn o fuel v stable props (tr ++ hooks)
    end.

(** ** Unmount *)

(** What the operating system answers during one call of [doUnmount]; the
    source looks at none of the results, only the interrupted [waitpid] is
    retried. *)
Record unmount_oracle := mkUnmountOracle {
  u_kill : Z;
  u_waitpid_interrupts : nat;
  u_waitpid : Z;
  u_force_unmount : string -> Z;
  u_rmdir : string -> Z
}.

(** One of the three clean-up blocks of [doUnmount]: the slot is cleared
    when [strcmp] finds its storage name equal to the stable name. *)
Definition clear_slot (storageKey pathKey triggerKey stable : string) (props : properties)
  : properties :=
  if decide (property_get props storageKey "" = stable) then
    property_set triggerKey "0" (property_set storageKey "" (property_set pathKey "" props))
  else props.

(** [PublicVolume::doUnmount]. *)
Definition doUnmount (u : unmount_oracle) (v : PublicVolume) (props : properties) : run :=
  let '(v, tr) :=
    if decide (mFusePid v > 0) then
      (set_fusePid 0 v,
       (ignoring (u_kill u) (EvKill (mFusePid v) SIGTERM) ++
        temp_failure_retry (u_waitpid_interrupts u) (EvWaitpid (mFusePid v))))
    else (v, []) in
  let tr :=
    (tr ++ ignoring (u_force_unmount u kAsecPath) (EvForceUnmount kAsecPath)
        ++ ignoring (u_force_unmount u (mFuseDefault v)) (EvForceUnmount (mFuseDefault v))
        ++ ignoring (u_force_unmount u (mFuseRead v)) (EvForceUnmount (mFuseRead v))
        ++ ignoring (u_force_unmount u (mFuseWrite v)) (EvForceUnmount (mFuseWrite v))
        ++ ignoring (u_force_unmount u (mRawPath v)) (EvForceUnmount (mRawPath v))
        ++ ignoring (u_rmdir u (mFuseDefault v)) (EvRmdir (mFuseDefault v))
        ++ ignoring (u_rmdir u (mFuseRead v)) (EvRmdir (mFuseRead v))
        ++ ignoring (u_rmdir u (mFuseWrite v)) (EvRmdir (mFuseWrite v))
        ++ ignoring (u_rmdir u (mRawPath v)) (EvRmdir (mRawPath v))) in
  let v := set_paths "" "" "" "" v in
  let stable := stableName v in
  let props := clear_slot "sys.update.storage" "sys.update.path" "sys.update.trigger"
                          stable props in
  let props := clear_slot "sys.startup.storage" "sys.startup.path" "sys.startup.trigger"
                          stable props in
  let props := clear_slot "sys.cust.storage" "sys.cust.path" "sys.cust.trigger"
                          stable props in
  mkRun (Returned OK) v props tr.

(** ** Format *)

Record format_oracle := mkFormatOracle {
  f_wipe : status_t;
  f_format : Z;
  f_errno : Z
}.

(** [PublicVolume::doFormat]; the volume and the properties are not
    touched, so the result is the status and the calls issued. *)
Definition doFormat (f : format_oracle) (v : PublicVolume) (fsType : string)
  : status_t * list event :=
  if decide (fsType = "vfat" ∨ fsType = "auto") then
    let tr := (ignoring (f_wipe f) (EvWipeBlockDevice (mDevPath v))
               ++ [EvFormat Vfat (mDevPath v) 0]) in
    if decide (f_format f = 0) then (OK, tr) else (- f_errno f, tr)
  else (- EINVAL, []).

(** ** Vocabulary of the specification *)

(** The three post-mount hooks, in the order of evaluation, with the trigger
    file of each (relative to the raw path) and the three keys of its slot. *)
Inductive hook := Update | Startup | Cust.

Definition hook_order : list hook := [Update; Startup; Cust].

Definition trigger_file (h : hook) (raw : string) : string :=
  match h with
  | Update => raw +:+ "/OTA/update.zip"
  | Startup => raw +:+ "/startup/start_up.sh"
  | Cust => raw +:+ "/cust/cust_update.zip"
  end.

Definition path_key (h : hook) : string :=
  match h with
  | Update => "sys.update.path"
  | Startup => "sys.startup.path"
  | Cust => "sys.cust.path"
  end.

Definition storage_key (h : hook) : string :=
  match h with
  | Update => "sys.update.storage"
  | Startup => "sys.startup.storage"
  | Cust => "sys.cust.storage"
  end.

Definition trigger_key (h : hook) : string :=
  match h with
  | Update => "sys.update.trigger"
  | Startup => "sys.startup.trigger"
  | Cust => "sys.cust.trigger"
  end.

(** A slot is claimed when its flag reads as true. *)
Definition claimed (props : properties) (h : hook) : bool :=
  property_get_bool props (trigger_key h) false.

(** The content of a slot: path, storage name, flag. *)
Definition slot (props : properties) (h : hook) : option string * option string * option string :=
  (props !! path_key h, props !! storage_key h, props !! trigger_key h).

Definition idle_slot : option string * option string * option string :=
  (Some "", Some "", Some "0").

Definition claimed_slot (path stable : string) : option string * option string * option string :=
  (Some path, Some stable, Some "1").

(** The hook evaluation in the words of the specification: one loop over
    the hooks in order; a claimed slot is skipped; otherwise the trigger
    file is looked for and, when present, the slot is populated and the
    loop stops; when absent the loop goes on.  [flags] is the store the
    flags were read from when the mount began. *)
Fixpoint spec_eval_hooks (present : string -> bool) (stable raw : string)
    (flags : properties) (hooks : list hook) (props : properties)
  : properties * list event :=
  match hooks with
  | [] => (props, [])
  | h :: rest =>
      if claimed flags h then spec_eval_hooks present stable raw flags rest props
      else if present (trigger_file h raw) then
        (property_set (trigger_key h) "1"
           (property_set (storage_key h) stable
              (property_set (path_key h) (trigger_file h raw) props)),
         [EvAccess (trigger_file h raw) F_OK])
      else
        let '(props', tr) := spec_eval_hooks present stable raw flags rest props in
        (props', EvAccess (trigger_file h raw) F_OK :: tr)
  end.

(** The mount-session paths of a volume. *)
Definition session_paths (v : PublicVolume) : list string :=
  [mRawPath v; mFuseDefault v; mFuseRead v; mFuseWrite v].

(** The stable name a mount works with: the uuid the metadata reader
    found, else the volume id. *)
Definition mount_stable (o : mount_oracle) (v : PublicVolume) : string :=
  if decide (o_fsUuid o = "") then getId v else o_fsUuid o.

(** The volume object once [doMount] has refreshed the metadata and
    computed the four paths. *)
Definition mounting_volume (o : mount_oracle) (v : PublicVolume) : PublicVolume :=
  let stable := mount_stable o v in
  set_paths ("/mnt/media_rw/" +:+ stable) ("/mnt/runtime/default/" +:+ stable)
            ("/mnt/runtime/read/" +:+ stable) ("/mnt/runtime/write/" +:+ stable)
            (set_metadata (o_fsType o) (o_fsUuid o) (o_fsLabel o) v).

(** The family the probe settles on. *)
Definition probed (o : mount_oracle) : option fs_family :=
  if decide (o_check o Vfat = 0) then Some Vfat
  else if decide (o_check o Ntfs = 0) then Some Ntfs
  else None.

(** The conditions under which [doMount] gets as far as the hooks: a
    supported type, a family settled by the probe, the four directories
    prepared, and no abort at the native mount (only the vfat mount can
    abort). *)
Definition supported (o : mount_oracle) : Prop :=
  o_fsType o = "vfat" ∨ o_fsType o = "ntfs".

Definition dirs_prepared (o : mount_oracle) (v : PublicVolume) : Prop :=
  Forall (λ p, o_prepare_dir o p = 0) (session_paths (mounting_volume o v)).

Definition passes_native_mount (o : mount_oracle) : Prop :=
  probed o = Some Ntfs ∨ (probed o = Some Vfat ∧ o_mount o Vfat = 0).

Definition reaches_hooks (o : mount_oracle) (v : PublicVolume) : Prop :=
  supported o ∧ dirs_prepared o v ∧ passes_native_mount o.

(** Classes of external calls. *)
Definition is_check (e : event) : bool :=
  match e with EvCheck _ _ => true | _ => false end.

Definition is_native_mount (e : event) : bool :=
  match e with EvMount _ _ _ _ _ _ _ _ _ _ => true | _ => false end.

Definition is_prepare_dir (e : event) : bool :=
  match e with EvPrepareDir _ _ _ _ => true | _ => false end.

Definition is_hook_access (e : event) : bool :=
  match e with EvAccess _ mode => bool_decide (mode = F_OK) | _ => false end.

Definition is_asec (e : event) : bool :=
  match e with
  | EvAccess _ mode => bool_decide (mode = Z.lor R_OK X_OK)
  | EvRename _ _ | EvMkdir _ _ | EvBindMount _ _ => true
  | _ => false
  end.

(** The calls up to the native mount: metadata, probe, path set-up,
    directories, mount. *)
Definition is_setup (e : event) : bool :=
  match e with
  | EvReadMetadataUntrusted _ | EvNotify _ _ | EvCheck _ _
  | EvSetInternalPath _ | EvSetPath _ | EvPrepareDir _ _ _ _
  | EvMount _ _ _ _ _ _ _ _ _ _ => true
  | _ => false
  end.

(** The calls that belong to the spawn of the translator and to the wait
    for its readiness. *)
Definition is_spawn (e : event) : bool :=
  match e with
  | EvGetDevice _ | EvFork | EvExecl _ _ | EvUsleep _ => true
  | _ => false
  end.

Definition is_poll (e : event) : bool :=
  match e with EvGetDevice _ | EvUsleep _ => true | _ => false end.

Definition is_reap (e : event) : bool :=
  match e with EvKill _ _ | EvWaitpid _ => true | _ => false end.

Definition all_empty (v : PublicVolume) : Prop :=
  Forall (λ p, p = "") (session_paths v).

Definition all_populated (v : PublicVolume) : Prop :=
  Forall (λ p, p ≠ "") (session_paths v).

(** The calls issued up to the preparation of the directories, and up to
    and including the native mount of the probed family. *)
Definition probe_calls (o : mount_oracle) (v : PublicVolume) : list event :=
  if decide (o_check o Vfat = 0) then [EvCheck Vfat (mDevPath v)]
  else [EvCheck Vfat (mDevPath v); EvCheck Ntfs (mDevPath v)].

Definition calls_before_mount (o : mount_oracle) (v : PublicVolume) : list event :=
  let v' := mounting_volume o v in
  snd (readMetadata o v) ++ probe_calls o v ++
  [EvSetInternalPath (mRawPath v');
   EvSetPath (if decide (Z.land (getMountFlags v) kVisible = 0)
              then mRawPath v' else "/storage/" +:+ mount_stable o v)].

Definition calls_before_hooks (o : mount_oracle) (v : PublicVolume) (fs : fs_family)
  : list event :=
  let v' := mounting_volume o v in
  calls_before_mount o v ++
  map (λ p, EvPrepareDir p mode_0700 AID_ROOT AID_ROOT) (session_paths v') ++
  [EvMount fs (mDevPath v) (mRawPath v') false false false
           AID_MEDIA_RW AID_MEDIA_RW mask_0007 true].

(** Whether the trigger file of a hook is there, as [access] tells. *)
Definition present (o : mount_oracle) (path : string) : bool :=
  bool_decide (o_access o path F_OK = 0).

(** The three trigger blocks as [doMount] runs them: the paths are built
    from the raw path, the flags are read from the store at hand. *)
Definition run_hooks (o : mount_oracle) (v : PublicVolume) (props : properties)
  : properties * list event :=
  let raw := mRawPath (mounting_volume o v) in
  update_block o (mount_stable o v)
    (raw +:+ "/OTA/update.zip") (raw +:+ "/startup/start_up.sh")
    (raw +:+ "/cust/cust_update.zip")
    (property_get_bool props "sys.update.trigger" false)
    (property_get_bool props "sys.startup.trigger" false)
    (property_get_bool props "sys.cust.trigger" false) props.

(** The teardown steps of an unmount: the signal and the wait, issued when
    a process id is recorded, and then the nine forced unmounts and
    directory removals. *)
Definition reap_calls (u : unmount_oracle) (v : PublicVolume) : list event :=
  if decide (mFusePid v > 0) then
    EvKill (mFusePid v) SIGTERM ::
    replicate (S (u_waitpid_interrupts u)) (EvWaitpid (mFusePid v))
  else [].


(** ** Device node *)

(** The two calls on the device node, with their arguments. *)
Inductive node_call :=
  | CreateDeviceNode (path : string) (dev : dev_t)
  | DestroyDeviceNode (path : string).

(** [PublicVolume::doCreate] and [PublicVolume::doDestroy]: the status of
    the helper is handed back as it is. *)
Definition doCreate (result : status_t) (v : PublicVolume) : status_t * list node_call :=
  (result, [CreateDeviceNode (mDevPath v) (mDevice v)]).

Definition doDestroy (result : status_t) (v : PublicVolume) : status_t * list node_call :=
  (result, [DestroyDeviceNode (mDevPath v)]).

(** ** Further vocabulary *)

Definition is_notify (e : event) : bool :=
  match e with EvNotify _ _ => true | _ => false end.

Definition is_set_path (e : event) : bool :=
  match e with EvSetInternalPath _ | EvSetPath _ => true | _ => false end.

Definition is_usleep (e : event) : bool :=
  match e with EvUsleep _ => true | _ => false end.

Definition is_execl (e : event) : bool :=
  match e with EvExecl _ _ => true | _ => false end.

Definition is_mkdir (e : event) : bool :=
  match e with EvMkdir _ _ => true | _ => false end.

Definition is_rename (e : event) : bool :=
  match e with EvRename _ _ => true | _ => false end.

Definition is_bind_mount (e : event) : bool :=
  match e with EvBindMount _ _ => true | _ => false end.

(** The step of a mount an external call belongs to, numbered in the order
    of the source text: metadata read, notifications, checks, internal
    path, user-facing path, directories, native mount, trigger-file tests,
    secure staging, spawn and readiness; the teardown and format calls come
    last. *)
Definition phase (e : event) : nat :=
  match e with
  | EvReadMetadataUntrusted _ => 0
  | EvNotify _ _ => 1
  | EvCheck _ _ => 2
  | EvSetInternalPath _ => 3
  | EvSetPath _ => 4
  | EvPrepareDir _ _ _ _ => 5
  | EvMount _ _ _ _ _ _ _ _ _ _ => 6
  | EvAccess _ mode => if bool_decide (mode = F_OK) then 7 else 8
  | EvRename _ _ | EvMkdir _ _ | EvBindMount _ _ => 8
  | EvGetDevice _ | EvFork | EvExecl _ _ | EvUsleep _ => 9
  | _ => 10
  end%nat.

(** The two calls that report the paths of the volume. *)
Definition path_calls (o : mount_oracle) (v : PublicVolume) : list event :=
  [EvSetInternalPath (mRawPath (mounting_volume o v));
   EvSetPath (if decide (Z.land (getMountFlags v) kVisible = 0)
              then mRawPath (mounting_volume o v)
              else "/storage/" +:+ mount_stable o v)].

(** The slot of a hook once the hook has fired for a raw path and a stable
    name. *)
Definition populate (h : hook) (stable raw : string) (props : properties) : properties :=
  property_set (trigger_key h) "1"
    (property_set (storage_key h) stable
       (property_set (path_key h) (trigger_file h raw) props)).

Definition slot_keys (h : hook) : list string :=
  [path_key h; storage_key h; trigger_key h].

(** The calls of the readiness loop when the device identity changes at
    poll [n]: [n] rounds of poll and sleep, and the poll that ends the
    loop. *)
Definition polls_until (path : string) (n : nat) : list event :=
  concat (replicate n [EvGetDevice path; EvUsleep 50000]) ++ [EvGetDevice path].

(** The nine teardown calls on the paths a mount computed for a stable
    name. *)
Definition teardown_of (stable : string) : list event :=
  [EvForceUnmount kAsecPath;
   EvForceUnmount ("/mnt/runtime/default/" +:+ stable);
   EvForceUnmount ("/mnt/runtime/read/" +:+ stable);
   EvForceUnmount ("/mnt/runtime/write/" +:+ stable);
   EvForceUnmount ("/mnt/media_rw/" +:+ stable);
   EvRmdir ("/mnt/runtime/default/" +:+ stable);
   EvRmdir ("/mnt/runtime/read/" +:+ stable);
   EvRmdir ("/mnt/runtime/write/" +:+ stable);
   EvRmdir ("/mnt/media_rw/" +:+ stable)].

(** ** Sample inputs *)

Definition sample_device : dev_t := makedev 179 1.

Definition sample_volume : PublicVolume := PublicVolume_new sample_device.

Definition visible_volume : PublicVolume := setMountFlags kVisible sample_volume.

(** A healthy vfat card without a uuid and without trigger files; the
    translator (pid 4242) is ready at the second poll. *)
Definition card_oracle : mount_oracle :=
  {| o_metadata_status := OK;
     o_fsType := "vfat"; o_fsUuid := ""; o_fsLabel := "CARD";
     o_check := λ _, 0;
     o_prepare_dir := λ _, 0; o_prepare_errno := 0;
     o_mount := λ _, 0;
     o_access := λ _ _, -1;
     o_rename := 0;
     o_mkdir_interrupts := 0; o_mkdir := 0; o_mkdir_errno := 0;
     o_device_before := makedev 0 20;
     o_fork := 4242; o_fork_errno := 0;
     o_execl := Some (-1);
     o_device_poll := λ k, if decide (k = 0%nat) then makedev 0 20 else makedev 0 37 |}.

(** The same card with a uuid. *)
Definition uuid_oracle : mount_oracle :=
  {| o_metadata_status := OK;
     o_fsType := "vfat"; o_fsUuid := "ABCD-1234"; o_fsLabel := "CARD";
     o_check := o_check card_oracle;
     o_prepare_dir := o_prepare_dir card_oracle; o_prepare_errno := 0;
     o_mount := o_mount card_oracle;
     o_access := o_access card_oracle;
     o_rename := 0;
     o_mkdir_interrupts := 0; o_mkdir := 0; o_mkdir_errno := 0;
     o_device_before := o_device_before card_oracle;
     o_fork := 4242; o_fork_errno := 0;
     o_execl := Some (-1);
     o_device_poll := o_device_poll card_oracle |}.

(** An ntfs disk: the vfat check fails, the ntfs check passes, and then the
    ntfs mount fails. *)
Definition ntfs_mount_failure : mount_oracle :=
  {| o_metadata_status := OK;
     o_fsType := "ntfs"; o_fsUuid := "ABCD-1234"; o_fsLabel := "";
     o_check := λ fs, match fs with Vfat => -1 | Ntfs => 0 end;
     o_prepare_dir := λ _, 0; o_prepare_errno := 0;
     o_mount := λ _, -1;
     o_access := λ _ _, -1;
     o_rename := 0;
     o_mkdir_interrupts := 0; o_mkdir := 0; o_mkdir_errno := 0;
     o_device_before := makedev 0 20;
     o_fork := 4242; o_fork_errno := 0;
     o_execl := Some (-1);
     o_device_poll := λ _, makedev 0 37 |}.

(** A disk that neither checker accepts. *)
Definition unreadable_oracle : mount_oracle :=
  {| o_metadata_status := OK;
     o_fsType := "vfat"; o_fsUuid := ""; o_fsLabel := "";
     o_check := λ _, -1;
     o_prepare_dir := λ _, 0; o_prepare_errno := 0;
     o_mount := λ _, 0;
     o_access := λ _ _, -1;
     o_rename := 0;
     o_mkdir_interrupts := 0; o_mkdir := 0; o_mkdir_errno := 0;
     o_device_before := makedev 0 20;
     o_fork := 4242; o_fork_errno := 0;
     o_execl := Some (-1);
     o_device_poll := λ _, makedev 0 37 |}.

(** The healthy card at a moment when [fork] fails with [ENOMEM]. *)
Definition fork_failure : mount_oracle :=
  {| o_metadata_status := OK;
     o_fsType := "vfat"; o_fsUuid := ""; o_fsLabel := "CARD";
     o_check := o_check card_oracle;
     o_prepare_dir := o_prepare_dir card_oracle; o_prepare_errno := 0;
     o_mount := o_mount card_oracle;
     o_access := o_access card_oracle;
     o_rename := 0;
     o_mkdir_interrupts := 0; o_mkdir := 0; o_mkdir_errno := 0;
     o_device_before := o_device_before card_oracle;
     o_fork := -1; o_fork_errno := 12;
     o_execl := Some (-1);
     o_device_poll := o_device_poll card_oracle |}.

(** A card that carries a start-up script and nothing else. *)
Definition startup_card : mount_oracle :=
  {| o_metadata_status := OK;
     o_fsType := "vfat"; o_fsUuid := "ABCD-1234"; o_fsLabel := "";
     o_check := o_check card_oracle;
     o_prepare_dir := o_prepare_dir card_oracle; o_prepare_errno := 0;
     o_mount := o_mount card_oracle;
     o_access := λ p _,
       if decide (p = "/mnt/media_rw/ABCD-1234/startup/start_up.sh") then 0 else -1;
     o_rename := 0;
     o_mkdir_interrupts := 0; o_mkdir := 0; o_mkdir_errno := 0;
     o_device_before := o_device_before card_oracle;
     o_fork := 4242; o_fork_errno := 0;
     o_execl := Some (-1);
     o_device_poll := o_device_poll card_oracle |}.

(** A property store in which another volume holds the update slot. *)
Definition update_claimed_elsewhere : properties :=
  property_set "sys.update.trigger" "1"
    (property_set "sys.update.path" "/mnt/media_rw/0000-0001/OTA/update.zip"
       (property_set "sys.update.storage" "0000-0001" ∅)).

(** A teardown in which every call fails and the wait is interrupted twice. *)
Definition failing_teardown : unmount_oracle :=
  {| u_kill := -1; u_waitpid_interrupts := 2; u_waitpid := -1;
     u_force_unmount := λ _, -1; u_rmdir := λ _, -1 |}.

Definition quiet_teardown : unmount_oracle :=
  {| u_kill := 0; u_waitpid_interrupts := 0; u_waitpid := 0;
     u_force_unmount := λ _, 0; u_rmdir := λ _, 0 |}.

Definition format_ok : format_oracle :=
  {| f_wipe := OK; f_format := 0; f_errno := 0 |}.

(** More sample inputs. *)

Definition primary_volume : PublicVolume := setMountFlags kPrimary sample_volume.

Definition primary_visible_volume : PublicVolume :=
  setMountFlags (Z.lor kPrimary kVisible) (setMountUserId 10 sample_volume).

(** A disk whose metadata names a type that is not handled. *)
Definition ext4_oracle : mount_oracle :=
  {| o_metadata_status := OK;
     o_fsType := "ext4"; o_fsUuid := "57f8f4bc"; o_fsLabel := "";
     o_check := o_check card_oracle;
     o_prepare_dir := o_prepare_dir card_oracle; o_prepare_errno := 0;
     o_mount := o_mount card_oracle;
     o_access := o_access card_oracle;
     o_rename := 0;
     o_mkdir_interrupts := 0; o_mkdir := 0; o_mkdir_errno := 0;
     o_device_before := o_device_before card_oracle;
     o_fork := 4242; o_fork_errno := 0;
     o_execl := Some (-1);
     o_device_poll := o_device_poll card_oracle |}.

(** The sample card when the third directory cannot be prepared
    ([EACCES]). *)
Definition dir_failure : mount_oracle :=
  {| o_metadata_status := OK;
     o_fsType := "vfat"; o_fsUuid := ""; o_fsLabel := "CARD";
     o_check := o_check card_oracle;
     o_prepare_dir := λ p,
       if decide (p = "/mnt/runtime/read/public:179:1") then -1 else 0;
     o_prepare_errno := 13;
     o_mount := o_mount card_oracle;
     o_access := o_access card_oracle;
     o_rename := 0;
     o_mkdir_interrupts := 0; o_mkdir := 0; o_mkdir_errno := 0;
     o_device_before := o_device_before card_oracle;
     o_fork := 4242; o_fork_errno := 0;
     o_execl := Some (-1);
     o_device_poll := o_device_poll card_oracle |}.

(** The sample card on which the staging directory cannot be made
    ([EROFS]), after one interrupted attempt; the legacy directory is
    there, the current one is not, and the rename fails too. *)
Definition staging_failure : mount_oracle :=
  {| o_metadata_status := OK;
     o_fsType := "vfat"; o_fsUuid := ""; o_fsLabel := "CARD";
     o_check := o_check card_oracle;
     o_prepare_dir := o_prepare_dir card_oracle; o_prepare_errno := 0;
     o_mount := o_mount card_oracle;
     o_access := λ p _,
       if decide (p = "/mnt/media_rw/public:179:1/android_secure") then 0 else -1;
     o_rename := -1;
     o_mkdir_interrupts := 1; o_mkdir := -1; o_mkdir_errno := 30;
     o_device_before := o_device_before card_oracle;
     o_fork := 4242; o_fork_errno := 0;
     o_execl := Some (-1);
     o_device_poll := o_device_poll card_oracle |}.

(** The sample card as seen by the forked child, whose [execl] fails. *)
Definition child_oracle : mount_oracle :=
  {| o_metadata_status := OK;
     o_fsType := "vfat"; o_fsUuid := ""; o_fsLabel := "CARD";
     o_check := o_check card_oracle;
     o_prepare_dir := o_prepare_dir card_oracle; o_prepare_errno := 0;
     o_mount := o_mount card_oracle;
     o_access := o_access card_oracle;
     o_rename := 0;
     o_mkdir_interrupts := 0; o_mkdir := 0; o_mkdir_errno := 0;
     o_device_before := o_device_before card_oracle;
     o_fork := 0; o_fork_errno := 0;
     o_execl := Some (-1);
     o_device_poll := o_device_poll card_oracle |}.

(** The sample card with a translator that never gets ready. *)
Definition never_ready : mount_oracle :=
  {| o_metadata_status := OK;
     o_fsType := "vfat"; o_fsUuid := ""; o_fsLabel := "CARD";
     o_check := o_check card_oracle;
     o_prepare_dir := o_prepare_dir card_oracle; o_prepare_errno := 0;
     o_mount := o_mount card_oracle;
     o_access := o_access card_oracle;
     o_rename := 0;
     o_mkdir_interrupts := 0; o_mkdir := 0; o_mkdir_errno := 0;
     o_device_before := o_device_before card_oracle;
     o_fork := 4242; o_fork_errno := 0;
     o_execl := Some (-1);
     o_device_poll := λ _, o_device_before card_oracle |}.

(** * Properties *)

Example fmt_u_179 : fmt_u 179 = "179".
Proof. reflexivity. Qed.

Example fmt_u_wraps : fmt_u (2 ^ 32 + 7) = "7".
Proof. reflexivity. Qed.

Example to_string_minus_one : to_string (-1) = "-1".
Proof. reflexivity. Qed.

Example new_id : getId sample_volume = "public:179:1".
Proof. reflexivity. Qed.

Example property_get_bool_claimed :
  property_get_bool (property_set "sys.update.trigger" "1" ∅) "sys.update.trigger" false = true.
Proof. reflexivity. Qed.

Example property_get_bool_idle :
  property_get_bool (property_set "sys.update.trigger" "0" ∅) "sys.update.trigger" false = false.
Proof. reflexivity. Qed.

Example property_get_bool_unset : property_get_bool ∅ "sys.update.trigger" false = false.
Proof. reflexivity. Qed.

(** ** Traces of the building blocks *)

Section Traces.
Implicit Types (p q : event -> bool) (l : list event).

Lemma filter_excluded p q l :
  Forall (λ e, q e = true) l -> (∀ e, q e = true -> p e = false) ->
  List.filter p l = [].
Proof.
  intros Hq Hpq. induction Hq as [|e l He _ IH]; [done|].
  simpl. by rewrite (Hpq e He).
Qed.

Lemma filter_included p q l :
  Forall (λ e, q e = true) l -> (∀ e, q e = true -> p e = true) ->
  List.filter p l = l.
Proof.
  intros Hq Hpq. induction Hq as [|e l He _ IH]; [done|].
  simpl. by rewrite (Hpq e He), IH.
Qed.

Lemma prepare_dirs_kind o paths :
  Forall (λ e, is_prepare_dir e = true) (snd (prepare_dirs o paths)).
Proof.
  induction paths as [|path paths IH]; simpl; [constructor|].
  case_decide.
  - destruct (prepare_dirs o paths) as [failed tr]. simpl in *. by constructor.
  - simpl. by repeat constructor.
Qed.

Lemma cust_block_kind o stable custPath c props :
  Forall (λ e, is_hook_access e = true) (snd (cust_block o stable custPath c props)).
Proof. unfold cust_block. destruct c; repeat case_decide; simpl; by repeat constructor. Qed.

Lemma startup_block_kind o stable startupPath custPath s c props :
  Forall (λ e, is_hook_access e = true)
         (snd (startup_block o stable startupPath custPath s c props)).
Proof.
  unfold startup_block.
  pose proof (cust_block_kind o stable custPath c props) as Hc.
  destruct s; [done|]. case_decide; simpl; [by repeat constructor|].
  destruct (cust_block _ _ _ _ _). simpl in *. by constructor.
Qed.

Lemma update_block_kind o stable updatePath startupPath custPath u s c props :
  Forall (λ e, is_hook_access e = true)
         (snd (update_block o stable updatePath startupPath custPath u s c props)).
Proof.
  unfold update_block.
  pose proof (startup_block_kind o stable startupPath custPath s c props) as Hs.
  destruct u; [done|]. case_decide; simpl; [by repeat constructor|].
  destruct (startup_block _ _ _ _ _ _ _). simpl in *. by constructor.
Qed.

Lemma initAsecStage_kind o v :
  Forall (λ e, is_asec e = true) (snd (initAsecStage o v)).
Proof.
  unfold initAsecStage, temp_failure_retry, ignoring.
  set (mk := replicate _ _).
  assert (Forall (λ e, is_asec e = true) mk) as Hmk
    by (by apply Forall_replicate).
  set (recover := EvAccess _ _ :: _).
  assert (Forall (λ e, is_asec e = true) recover) as Hrec
    by (subst recover; repeat case_decide; by repeat constructor).
  repeat case_decide; cbn [snd]; rewrite ?Forall_app; auto.
Qed.

Lemma wait_for_fuse_kind o before path fuel k :
  Forall (λ e, is_poll e = true) (snd (wait_for_fuse o before path fuel k)).
Proof.
  revert k. induction fuel as [|fuel IH]; intros k; simpl; [constructor|].
  case_decide; simpl; [|by repeat constructor].
  specialize (IH (S k)). destruct (wait_for_fuse _ _ _ _ _). simpl in *.
  by repeat constructor.
Qed.
End Traces.

(** ** The tail of a mount: staging and spawn *)

Lemma doMount_spawn_props o fuel v stable props tr :
  r_props (doMount_spawn o fuel v stable props tr) = props.
Proof.
  unfold doMount_spawn. destruct (wait_for_fuse _ _ _ _ _), (o_execl o).
  all: by repeat case_decide.
Qed.

(** A volume that is not visible: the call returns after the staging. *)
Lemma doMount_spawn_hidden o fuel v stable props tr :
  Z.land (getMountFlags v) kVisible = 0 ->
  doMount_spawn o fuel v stable props tr =
  mkRun (Returned OK) v props
        (if decide (Z.land (getMountFlags v) kPrimary = 0) then tr
         else tr ++ snd (initAsecStage o v)).
Proof. intros Hv. unfold doMount_spawn. by rewrite (decide_True _ _ Hv). Qed.

(** Whatever happens, the tail only appends staging and spawn calls. *)
Lemma doMount_spawn_trace o fuel v stable props tr :
  ∃ staging spawn,
    r_trace (doMount_spawn o fuel v stable props tr) = tr ++ staging ++ spawn ∧
    Forall (λ e, is_asec e = true) staging ∧
    Forall (λ e, is_spawn e = true) spawn.
Proof.
  unfold doMount_spawn.
  set (staged := if decide (Z.land (getMountFlags v) kPrimary = 0) then tr else _).
  assert (∃ staging, staged = tr ++ staging ∧ Forall (λ e, is_asec e = true) staging)
    as (staging & -> & Hst).
  { subst staged. case_decide.
    - exists []. by rewrite app_nil_r.
    - eexists. split; [done|]. apply initAsecStage_kind. }
  exists staging.
  pose proof (wait_for_fuse_kind o (o_device_before o)
                (mFuseWrite (set_fusePid (o_fork o) v)) fuel 0) as Hw.
  destruct (wait_for_fuse _ _ _ _ _) as [out polls]. cbn [snd] in Hw.
  assert (Forall (λ e, is_spawn e = true) polls) as Hpolls
    by (eapply Forall_impl; [exact Hw|]; by intros []).
  case_decide; [|case_decide; [|case_decide]].
  - exists []. rewrite app_nil_r. by auto.
  - exists [EvGetDevice (mFuseWrite (set_fusePid (o_fork o) v)); EvFork;
            EvExecl kFusePath (fuse_args (set_fusePid (o_fork o) v) stable)].
    destruct (o_execl o); cbn [r_trace]; rewrite <- !(assoc_L (++));
      (split; [reflexivity|]); (split; [done|]); by repeat constructor.
  - exists [EvGetDevice (mFuseWrite (set_fusePid (o_fork o) v)); EvFork].
    cbn [r_trace]. rewrite <- !(assoc_L (++)).
    split; [reflexivity|]. split; [done|]. by repeat constructor.
  - exists ([EvGetDevice (mFuseWrite (set_fusePid (o_fork o) v)); EvFork] ++ polls).
    cbn [r_trace]. rewrite <- !(assoc_L (++)). split; [reflexivity|].
    split; [done|]. by repeat constructor.
Qed.

(** The process id field after the tail: untouched when nothing was forked,
    else whatever [fork] returned. *)
Lemma doMount_spawn_pid o fuel v stable props tr :
  let r := doMount_spawn o fuel v stable props tr in
  (Z.land (getMountFlags v) kVisible = 0 ∧ r_vol r = v) ∨
  (Z.land (getMountFlags v) kVisible ≠ 0 ∧ r_vol r = set_fusePid (o_fork o) v ∧
   EvFork ∈ r_trace r).
Proof.
  unfold doMount_spawn. cbv zeta.
  destruct (wait_for_fuse _ _ _ _ _) as [out polls].
  case_decide as Hvis; [by left|]. right. split; [done|].
  repeat case_decide; try destruct (o_execl o); cbn [r_vol r_trace];
    (split; [done|]); rewrite !elem_of_app, !elem_of_cons; tauto.
Qed.

(** ** The readiness loop *)

(** The loop returns as soon as the device identity differs from the
    sample: when that happens at poll [n], any fuel above [n] shows the
    return. *)
Lemma wait_for_fuse_ready o before path fuel k n :
  (∀ j, (j < n)%nat -> o_device_poll o (k + j) = before) ->
  o_device_poll o (k + n) ≠ before ->
  (n < fuel)%nat ->
  fst (wait_for_fuse o before path fuel k) = Returned OK.
Proof.
  revert fuel k. induction n as [|n IH]; intros fuel k Hsame Hdiff Hfuel.
  - destruct fuel as [|fuel]; [lia|]. simpl.
    rewrite Nat.add_0_r in Hdiff. by rewrite decide_False.
  - destruct fuel as [|fuel]; [lia|]. simpl.
    rewrite decide_True by (by rewrite <- (Hsame 0%nat), Nat.add_0_r by lia).
    assert (∀ j, (j < n)%nat -> o_device_poll o (S k + j) = before) as Hsame'.
    { intros j Hj. replace (S k + j)%nat with (k + S j)%nat by lia.
      apply Hsame. lia. }
    assert (o_device_poll o (S k + n) ≠ before) as Hdiff'.
    { by replace (S k + n)%nat with (k + S n)%nat by lia. }
    specialize (IH fuel (S k) Hsame' Hdiff' ltac:(lia)).
    by destruct (wait_for_fuse o before path fuel (S k)) as [out tr].
Qed.

Example visible_mount_ready :
  let r := doMount card_oracle 2 visible_volume ∅ in
  r_outcome r = Returned OK ∧ mFusePid (r_vol r) = 4242 ∧
  List.filter is_spawn (r_trace r) =
    [EvGetDevice "/mnt/runtime/write/public:179:1"; EvFork;
     EvGetDevice "/mnt/runtime/write/public:179:1"; EvUsleep 50000;
     EvGetDevice "/mnt/runtime/write/public:179:1"].
Proof. by vm_compute. Qed.

Example visible_mount_still_polling :
  r_outcome (doMount card_oracle 1 visible_volume ∅) = Polling.
Proof. by vm_compute. Qed.

(** ** The paths through a mount *)

Lemma prepare_dirs_ok o paths :
  Forall (λ p, o_prepare_dir o p = 0) paths ->
  prepare_dirs o paths =
  (false, map (λ p, EvPrepareDir p mode_0700 AID_ROOT AID_ROOT) paths).
Proof.
  induction 1 as [|path paths Hp _ IH]; [done|].
  simpl. by rewrite (decide_True _ _ Hp), IH.
Qed.

Lemma prepare_dirs_failed o paths :
  ¬ Forall (λ p, o_prepare_dir o p = 0) paths -> fst (prepare_dirs o paths) = true.
Proof.
  induction paths as [|path paths IH]; intros Hn.
  - by destruct Hn.
  - simpl. case_decide as Hp; [|done].
    destruct (prepare_dirs o paths) as [failed tr]. simpl in *.
    apply IH. intros Hall. apply Hn. by constructor.
Qed.


Lemma doMount_paths o fuel v props :
  let meta := set_metadata (o_fsType o) (o_fsUuid o) (o_fsLabel o) v in
  let r := doMount o fuel v props in
  (¬ supported o ∧
   r = mkRun (Returned (- EIO)) meta props (snd (readMetadata o v))) ∨
  (supported o ∧ probed o = None ∧
   r = mkRun (Returned (- EIO)) meta props (snd (readMetadata o v) ++ probe_calls o v)) ∨
  (supported o ∧ probed o ≠ None ∧ ¬ dirs_prepared o v ∧
   ∃ dirs, Forall (λ e, is_prepare_dir e = true) dirs ∧
     r = mkRun (Returned (- o_prepare_errno o)) (mounting_volume o v) props
           (calls_before_mount o v ++ dirs)) ∨
  (supported o ∧ probed o = Some Vfat ∧ dirs_prepared o v ∧ o_mount o Vfat ≠ 0 ∧
   r = mkRun (Returned (- EIO)) (mounting_volume o v) props
         (calls_before_hooks o v Vfat)) ∨
  (reaches_hooks o v ∧ ∃ fs, probed o = Some fs ∧
   r = doMount_spawn o fuel (mounting_volume o v) (mount_stable o v)
         (fst (run_hooks o v props))
         (calls_before_hooks o v fs ++ snd (run_hooks o v props))).
Proof.
  cbv zeta. unfold doMount, reaches_hooks, passes_native_mount, supported.
  cbn [readMetadata].
  change (stableName (set_metadata (o_fsType o) (o_fsUuid o) (o_fsLabel o) v))
    with (mount_stable o v).
  change (set_paths _ _ _ _ _) with (mounting_volume o v).
  change (mFsType (set_metadata (o_fsType o) (o_fsUuid o) (o_fsLabel o) v))
    with (o_fsType o).
  change (mDevPath (set_metadata (o_fsType o) (o_fsUuid o) (o_fsLabel o) v))
    with (mDevPath v).
  change (mDevPath (mounting_volume o v)) with (mDevPath v).
  change (getMountFlags (mounting_volume o v)) with (getMountFlags v).
  fold (run_hooks o v props).
  change [mRawPath (mounting_volume o v); mFuseDefault (mounting_volume o v);
          mFuseRead (mounting_volume o v); mFuseWrite (mounting_volume o v)]
    with (session_paths (mounting_volume o v)).
  unfold calls_before_hooks, calls_before_mount, probe_calls, probed, ignoring.
  cbn [readMetadata fst snd].
  destruct (run_hooks o v props) as [props' hooks]. cbn [fst snd].
  case_decide as Htype; [left; split; [tauto|done]|].
  assert (o_fsType o = "vfat" ∨ o_fsType o = "ntfs") as Hsup.
  { destruct (decide (o_fsType o = "vfat")); [by left|].
    destruct (decide (o_fsType o = "ntfs")); [by right|]. tauto. }
  right.
  destruct (decide (o_check o Vfat = 0)) as [Hvfat|Hvfat];
    [|destruct (decide (o_check o Ntfs = 0)) as [Hntfs|Hntfs]];
    cbn [fst snd]; [| |by left]; right.
  all: destruct (decide (dirs_prepared o v)) as [Hdirs|Hdirs].
  1,3: rewrite (prepare_dirs_ok _ _ Hdirs).
  3,4: pose proof (prepare_dirs_failed _ _ Hdirs) as Hfailed;
    pose proof (prepare_dirs_kind o (session_paths (mounting_volume o v))) as Hkind;
    destruct (prepare_dirs _ _) as [failed dirs]; cbn [fst snd] in *;
    subst failed; left; repeat (split; [done|]); exists dirs;
    split; [done|]; by rewrite <- ?(assoc_L (++)).
  - right. case_bool_decide as Hmount; cbn.
    + left. repeat (split; [done|]). by rewrite <- ?(assoc_L (++)).
    + right. split; [by auto 10|]. exists Vfat. split; [done|]. idtac.
      by rewrite <- ?(assoc_L (++)).
  - right. right. split; [by auto|]. exists Ntfs. split; [done|].
    by rewrite <- ?(assoc_L (++)).
Qed.

(** ** What the parts of a mount trace consist of *)

Lemma calls_before_mount_kind o v :
  Forall (λ e, is_setup e = true) (calls_before_mount o v).
Proof.
  unfold calls_before_mount, probe_calls. cbn [readMetadata snd].
  case_decide; by repeat constructor.
Qed.

Lemma calls_before_hooks_kind o v fs :
  Forall (λ e, is_setup e = true) (calls_before_hooks o v fs).
Proof.
  unfold calls_before_hooks. rewrite Forall_app. split.
  - apply calls_before_mount_kind.
  - by repeat constructor.
Qed.

Lemma run_hooks_kind o v props :
  Forall (λ e, is_hook_access e = true) (snd (run_hooks o v props)).
Proof. apply update_block_kind. Qed.

(** The checks among the calls are those of the probe. *)
Lemma calls_before_mount_checks o v :
  List.filter is_check (calls_before_mount o v) = probe_calls o v.
Proof.
  unfold calls_before_mount, probe_calls. cbn [readMetadata snd].
  by case_decide.
Qed.

Lemma calls_before_hooks_checks o v fs :
  List.filter is_check (calls_before_hooks o v fs) = probe_calls o v.
Proof.
  unfold calls_before_hooks. rewrite List.filter_app, calls_before_mount_checks.
  cbn. by rewrite app_nil_r.
Qed.

(** The tail adds nothing to a class of calls that has neither staging nor
    spawn calls in it. *)
Lemma doMount_spawn_filter (p : event -> bool) o fuel v stable props tr :
  (∀ e, is_asec e = true -> p e = false) ->
  (∀ e, is_spawn e = true -> p e = false) ->
  List.filter p (r_trace (doMount_spawn o fuel v stable props tr)) = List.filter p tr.
Proof.
  intros Hasec Hspawn.
  destruct (doMount_spawn_trace o fuel v stable props tr)
    as (staging & spawn & -> & Hst & Hsp).
  rewrite !List.filter_app.
  rewrite (filter_excluded p is_asec staging), (filter_excluded p is_spawn spawn) by done.
  by rewrite !app_nil_r.
Qed.

(** ** The filesystem probe *)

(** The checks a mount of a supported type issues are exactly those of the
    probe, whichever way the mount ends. *)
Lemma doMount_checks o fuel v props :
  supported o ->
  List.filter is_check (r_trace (doMount o fuel v props)) = probe_calls o v.
Proof.
  intros Hsup.
  destruct (doMount_paths o fuel v props)
    as [[Hn _]|[(_ & _ & ->)|[(_ & _ & _ & dirs & Hdirs & ->)|
        [(_ & _ & _ & _ & ->)|(_ & fs & _ & ->)]]]]; [done|..]; cbn [r_trace].
  - unfold probe_calls. cbn [readMetadata snd]. by case_decide.
  - rewrite List.filter_app, calls_before_mount_checks.
    rewrite (filter_excluded is_check is_prepare_dir dirs) by first [done | by intros []].
    by rewrite app_nil_r.
  - apply calls_before_hooks_checks.
  - rewrite doMount_spawn_filter by (by intros []).
    rewrite List.filter_app, calls_before_hooks_checks.
    rewrite (filter_excluded is_check is_hook_access) by
      first [apply run_hooks_kind | by intros []].
    by rewrite app_nil_r.
Qed.

(** C3. For a mount of a supported type the probe has a fixed precedence:
    the vfat checker is called first, the ntfs checker is called only when
    the vfat check failed, and when both checks fail the mount returns the
    I/O error without any native mount call. *)
Theorem probe_precedence o fuel v props :
  supported o ->
  let r := doMount o fuel v props in
  let checks := List.filter is_check (r_trace r) in
  (o_check o Vfat = 0 ∧ checks = [EvCheck Vfat (mDevPath v)]) ∨
  (o_check o Vfat ≠ 0 ∧ o_check o Ntfs = 0 ∧
   checks = [EvCheck Vfat (mDevPath v); EvCheck Ntfs (mDevPath v)]) ∨
  (o_check o Vfat ≠ 0 ∧ o_check o Ntfs ≠ 0 ∧
   checks = [EvCheck Vfat (mDevPath v); EvCheck Ntfs (mDevPath v)] ∧
   r_outcome r = Returned (- EIO) ∧
   List.filter is_native_mount (r_trace r) = []).
Proof.
  intros Hsup. cbv zeta. rewrite (doMount_checks _ _ _ _ Hsup).
  unfold probe_calls.
  destruct (decide (o_check o Vfat = 0)) as [Hvfat|Hvfat]; [by left|right].
  destruct (decide (o_check o Ntfs = 0)) as [Hntfs|Hntfs]; [by left|right].
  repeat (split; [done|]).
  assert (probed o = None) as Hnone.
  { unfold probed. by rewrite !decide_False. }
  destruct (doMount_paths o fuel v props)
    as [[Hn _]|[(_ & _ & ->)|[(_ & Hp & _)|[(_ & Hp & _)|(_ & fs & Hp & _)]]]];
    try congruence.
  cbn [r_outcome r_trace]. split; [done|].
  unfold probe_calls. by rewrite decide_False.
Qed.

(** On a disk that neither checker accepts: both checks, the I/O error, no
    mount. *)
Lemma probe_precedence_witness :
  let r := doMount unreadable_oracle 0 sample_volume ∅ in
  List.filter is_check (r_trace r) =
    [EvCheck Vfat "/dev/block/vold/public:179:1";
     EvCheck Ntfs "/dev/block/vold/public:179:1"] ∧
  r_outcome r = Returned (- EIO) ∧
  List.filter is_native_mount (r_trace r) = [].
Proof.
  assert (supported unreadable_oracle) as Hsup by (by left).
  destruct (probe_precedence unreadable_oracle 0 sample_volume ∅ Hsup)
    as [[Hv _]|[(_ & Hn & _)|(_ & _ & Hc & Ho & Hm)]].
  - discriminate Hv.
  - discriminate Hn.
  - exact (conj Hc (conj Ho Hm)).
Defined.

(** ** Mounts that get as far as the hooks *)

Lemma doMount_at_hooks o fuel v props :
  reaches_hooks o v ->
  ∃ fs, probed o = Some fs ∧
    doMount o fuel v props =
    doMount_spawn o fuel (mounting_volume o v) (mount_stable o v)
      (fst (run_hooks o v props))
      (calls_before_hooks o v fs ++ snd (run_hooks o v props)).
Proof.
  intros (Hsup & Hdirs & Hnative).
  destruct (doMount_paths o fuel v props)
    as [[Hn _]|[(_ & Hp & _)|[(_ & _ & Hd & _)|[(_ & Hp & _ & Hm & _)|(_ & Hfs)]]]];
    try done.
  - destruct Hnative as [Hq|[Hq _]]; congruence.
  - destruct Hnative as [Hq|[_ Hq]]; congruence.
Qed.

(** A class of calls [p] that has no set-up call in it selects nothing from
    the calls that precede the hooks. *)
Lemma calls_before_hooks_filter (p : event -> bool) o v fs :
  (∀ e, is_setup e = true -> p e = false) ->
  List.filter p (calls_before_hooks o v fs) = [].
Proof. intros Hp. eapply filter_excluded; [apply calls_before_hooks_kind|done]. Qed.

Lemma calls_before_mount_filter (p : event -> bool) o v :
  (∀ e, is_setup e = true -> p e = false) ->
  List.filter p (calls_before_mount o v) = [].
Proof. intros Hp. eapply filter_excluded; [apply calls_before_mount_kind|done]. Qed.

(** ** Visibility *)

(** C9. A mount of a volume without the visible flag that gets as far as
    the hooks returns success, whatever the fuel: no [fork], no [execl], no
    poll of the device identity and no sleep are issued, and the process id
    field keeps its value. *)
Theorem hidden_volume_spawns_nothing o fuel v props :
  Z.land (getMountFlags v) kVisible = 0 ->
  reaches_hooks o v ->
  let r := doMount o fuel v props in
  r_outcome r = Returned OK ∧
  List.filter is_spawn (r_trace r) = [] ∧
  mFusePid (r_vol r) = mFusePid v.
Proof.
  intros Hvis Hreach. cbv zeta.
  destruct (doMount_at_hooks o fuel v props Hreach) as (fs & _ & ->).
  rewrite doMount_spawn_hidden by done. cbn [r_outcome r_trace r_vol].
  split; [done|]. split; [|done].
  change (getMountFlags (mounting_volume o v)) with (getMountFlags v).
  assert (List.filter is_spawn
            (calls_before_hooks o v fs ++ snd (run_hooks o v props)) = []) as Hfront.
  { rewrite List.filter_app, calls_before_hooks_filter by (by intros []).
    eapply filter_excluded; [apply run_hooks_kind|by intros []]. }
  case_decide; [done|].
  rewrite List.filter_app, Hfront.
  eapply filter_excluded; [apply initAsecStage_kind|by intros []].
Qed.

(** The sample card in a volume that is not visible, observed with no fuel
    at all. *)
Lemma hidden_volume_spawns_nothing_witness :
  let r := doMount card_oracle 0 sample_volume ∅ in
  r_outcome r = Returned OK ∧
  List.filter is_spawn (r_trace r) = [] ∧
  mFusePid (r_vol r) = 0.
Proof.
  apply (hidden_volume_spawns_nothing card_oracle 0 sample_volume ∅).
  - reflexivity.
  - split; [by left|]. split; [by repeat constructor|]. right. by split.
Defined.

(** ** The process id of the translator *)

Lemma doMount_spawn_fork_failed o fuel v stable props tr :
  Z.land (getMountFlags v) kVisible ≠ 0 -> o_fork o = -1 ->
  r_outcome (doMount_spawn o fuel v stable props tr) = Returned (- o_fork_errno o).
Proof.
  intros Hvis Hfork. unfold doMount_spawn. rewrite (decide_False _ _ Hvis).
  cbn [mFusePid set_fusePid]. rewrite Hfork. by cbn.
Qed.

Lemma not_elem_of_filter_nil (p : event -> bool) (e : event) (l : list event) :
  p e = true -> List.filter p l = [] -> e ∉ l.
Proof.
  intros Hp Hnil Hin. apply list_elem_of_In in Hin.
  assert (In e (List.filter p l)) as Hf by (by apply List.filter_In).
  by rewrite Hnil in Hf.
Qed.

(** What a mount does to the process id field: without a [fork] the field
    keeps its value; with a [fork] it holds what [fork] returned. *)
Lemma doMount_pid o fuel v props :
  let r := doMount o fuel v props in
  ((EvFork ∉ r_trace r) ∧ mFusePid (r_vol r) = mFusePid v) ∨
  (EvFork ∈ r_trace r ∧ mFusePid (r_vol r) = o_fork o ∧
   (o_fork o = -1 -> r_outcome r = Returned (- o_fork_errno o))).
Proof.
  cbv zeta.
  destruct (doMount_paths o fuel v props)
    as [[_ ->]|[(_ & _ & ->)|[(_ & _ & _ & dirs & Hdirs & ->)|
        [(_ & _ & _ & _ & ->)|(_ & fs & _ & ->)]]]]; cbn [r_trace r_vol].
  1-4: left; split; [|done]; apply (not_elem_of_filter_nil is_spawn); [done|].
  - done.
  - rewrite List.filter_app. unfold probe_calls. by case_decide.
  - rewrite List.filter_app, calls_before_mount_filter by (by intros []).
    eapply filter_excluded; [exact Hdirs|by intros []].
  - apply calls_before_hooks_filter. by intros [].
  - set (tr := calls_before_hooks o v fs ++ _).
    set (props' := fst _).
    assert (List.filter is_spawn tr = []) as Hfront.
    { subst tr. rewrite List.filter_app, calls_before_hooks_filter by (by intros []).
      eapply filter_excluded; [apply run_hooks_kind|by intros []]. }
    destruct (doMount_spawn_pid o fuel (mounting_volume o v) (mount_stable o v) props' tr)
      as [[Hvis Hvol]|(Hvis & Hvol & Hfork)].
    + left. rewrite Hvol. split; [|done].
      apply (not_elem_of_filter_nil is_spawn); [done|].
      rewrite doMount_spawn_hidden by done. cbn [r_trace].
      case_decide; [done|]. rewrite List.filter_app, Hfront.
      eapply filter_excluded; [apply initAsecStage_kind|by intros []].
    + right. rewrite Hvol. repeat split; [done|].
      by apply doMount_spawn_fork_failed.
Qed.

(** [doUnmount] signals and reaps exactly when the field is positive. *)
Lemma doUnmount_pid u v props :
  let r := doUnmount u v props in
  ((mFusePid v > 0) ∧ mFusePid (r_vol r) = 0 ∧
   List.filter is_reap (r_trace r) =
     EvKill (mFusePid v) SIGTERM ::
     replicate (S (u_waitpid_interrupts u)) (EvWaitpid (mFusePid v))) ∨
  (mFusePid v <= 0 ∧ mFusePid (r_vol r) = mFusePid v ∧
   List.filter is_reap (r_trace r) = []).
Proof.
  unfold doUnmount, ignoring, temp_failure_retry. cbv zeta.
  case_decide as Hpid; cbn [r_vol r_trace mFusePid set_paths set_fusePid].
  - left. repeat split; [done|].
    rewrite <- !(assoc_L (++)), !List.filter_app. cbn [List.filter is_reap app].
    rewrite app_nil_r. f_equal.
    apply (filter_included is_reap is_reap); [|done].
    by apply Forall_replicate.
  - right. split; [lia|]. by split.
Qed.

(** C2 (as amended). The process id field is positive only while the
    translator is believed alive: a new volume has it at zero; a mount
    either issues no [fork] and leaves the field alone, or stores what
    [fork] returned, the child's pid or the -1 of a failed [fork], in
    which case the mount returns the error; an unmount signals and reaps a
    positive pid and clears the field to zero, and leaves a field that is
    not positive as it is. *)
Theorem fuse_pid_lifecycle device o fuel u v props :
  mFusePid (PublicVolume_new device) = 0 ∧
  (let r := doMount o fuel v props in
   ((EvFork ∉ r_trace r) ∧ mFusePid (r_vol r) = mFusePid v) ∨
   (EvFork ∈ r_trace r ∧ o_fork o = -1 ∧ mFusePid (r_vol r) = -1 ∧
    r_outcome r = Returned (- o_fork_errno o)) ∨
   (EvFork ∈ r_trace r ∧ o_fork o ≠ -1 ∧ mFusePid (r_vol r) = o_fork o)) ∧
  (let r := doUnmount u v props in
   ((mFusePid v > 0) ∧ mFusePid (r_vol r) = 0 ∧
    List.filter is_reap (r_trace r) =
      EvKill (mFusePid v) SIGTERM ::
      replicate (S (u_waitpid_interrupts u)) (EvWaitpid (mFusePid v))) ∨
   (mFusePid v <= 0 ∧ mFusePid (r_vol r) = mFusePid v ∧
    List.filter is_reap (r_trace r) = [])).
Proof.
  split; [done|]. split; [|apply doUnmount_pid].
  destruct (doMount_pid o fuel v props) as [Hno|(Hin & Hpid & Hfail)]; [by left|].
  right. destruct (decide (o_fork o = -1)) as [Hfork|Hfork].
  - left. rewrite Hpid. auto.
  - right. auto.
Qed.

(** C2, counterexample to the claim as it was stated: when [fork] fails during the mount of
    a visible volume whose field was zero, the field is left at -1, and the
    unmount that follows leaves it there. *)
Lemma fuse_pid_after_failed_fork :
  let m := doMount fork_failure 0 visible_volume ∅ in
  let n := doUnmount quiet_teardown (r_vol m) (r_props m) in
  mFusePid visible_volume = 0 ∧
  EvFork ∈ r_trace m ∧ o_fork fork_failure = -1 ∧
  r_outcome m = Returned (-12) ∧
  mFusePid (r_vol m) ≠ 0 ∧ mFusePid (r_vol n) ≠ 0.
Proof.
  cbv zeta. split; [done|]. split.
  - apply list_elem_of_In. vm_compute. tauto.
  - by vm_compute.
Qed.

(** ** The volume object after a mount *)

Lemma set_fusePid_same v : set_fusePid (mFusePid v) v = v.
Proof. by destruct v. Qed.

(** A mount that stops before the path computation only refreshes the
    metadata; any other mount leaves the volume with the four paths
    computed, and possibly a new process id. *)
Lemma doMount_vol o fuel v props :
  let r := doMount o fuel v props in
  ((¬ supported o ∨ probed o = None) ∧ r_outcome r = Returned (- EIO) ∧
   r_vol r = set_metadata (o_fsType o) (o_fsUuid o) (o_fsLabel o) v) ∨
  (supported o ∧ probed o ≠ None ∧
   ∃ pid, r_vol r = set_fusePid pid (mounting_volume o v)).
Proof.
  cbv zeta.
  destruct (doMount_paths o fuel v props)
    as [[Hn ->]|[(_ & Hp & ->)|[(Hs & Hp & _ & dirs & _ & ->)|
        [(Hs & Hp & _ & _ & ->)|((Hs & _) & fs & Hp & ->)]]]]; cbn [r_vol r_outcome].
  - left. auto.
  - left. auto.
  - right. repeat (split; [done|]). exists (mFusePid v). by destruct v.
  - right. split; [done|]. split; [congruence|].
    exists (mFusePid v). by destruct v.
  - right. split; [done|]. split; [congruence|].
    destruct (doMount_spawn_pid o fuel (mounting_volume o v) (mount_stable o v)
                (fst (run_hooks o v props))
                (calls_before_hooks o v fs ++ snd (run_hooks o v props)))
      as [[_ ->]|(_ & -> & _)].
    + exists (mFusePid v). by destruct v.
    + by eexists.
Qed.

Lemma mounting_volume_populated o v pid :
  all_populated (set_fusePid pid (mounting_volume o v)).
Proof. by repeat constructor. Qed.

(** ** Naming *)

(** C10. The volume id is "public:<major>:<minor>"; the stable name is the
    uuid found by the metadata reader when there is one, else the volume
    id; the raw path and the three bridged view paths are the fixed roots
    followed by the stable name. *)
Theorem naming_scheme device flags user o fuel props :
  supported o -> probed o ≠ None ->
  let v := setMountUserId user (setMountFlags flags (PublicVolume_new device)) in
  let r := doMount o fuel v props in
  let id := "public:" +:+ fmt_u (major device) +:+ ":" +:+ fmt_u (minor device) in
  let name := if decide (o_fsUuid o = "") then id else o_fsUuid o in
  getId v = id ∧
  stableName (r_vol r) = name ∧
  mRawPath (r_vol r) = "/mnt/media_rw/" +:+ name ∧
  mFuseDefault (r_vol r) = "/mnt/runtime/default/" +:+ name ∧
  mFuseRead (r_vol r) = "/mnt/runtime/read/" +:+ name ∧
  mFuseWrite (r_vol r) = "/mnt/runtime/write/" +:+ name.
Proof.
  intros Hsup Hprobe. cbv zeta.
  set (v := setMountUserId _ _).
  destruct (doMount_vol o fuel v props) as [([Hn|Hn] & _)|(_ & _ & pid & ->)];
    done.
Qed.

(** Device 179:1: without a uuid everything is named after the volume id,
    with the uuid "ABCD-1234" after the uuid. *)
Lemma naming_scheme_witness :
  let r := doMount card_oracle 0 sample_volume ∅ in
  let r' := doMount uuid_oracle 0 sample_volume ∅ in
  getId sample_volume = "public:179:1" ∧
  stableName (r_vol r) = "public:179:1" ∧
  mRawPath (r_vol r) = "/mnt/media_rw/public:179:1" ∧
  stableName (r_vol r') = "ABCD-1234" ∧
  mRawPath (r_vol r') = "/mnt/media_rw/ABCD-1234" ∧
  mFuseDefault (r_vol r') = "/mnt/runtime/default/ABCD-1234" ∧
  mFuseRead (r_vol r') = "/mnt/runtime/read/ABCD-1234" ∧
  mFuseWrite (r_vol r') = "/mnt/runtime/write/ABCD-1234".
Proof.
  assert (supported card_oracle ∧ supported uuid_oracle) as [Hs Hs']
    by (split; by left).
  assert (probed card_oracle ≠ None ∧ probed uuid_oracle ≠ None) as [Hp Hp']
    by done.
  destruct (naming_scheme sample_device 0 (-1) card_oracle 0 ∅ Hs Hp)
    as (Hid & Hname & Hraw & _).
  destruct (naming_scheme sample_device 0 (-1) uuid_oracle 0 ∅ Hs' Hp')
    as (_ & Hname' & Hraw' & Hdefault' & Hread' & Hwrite').
  repeat split; assumption.
Defined.

(** ** The mount-session paths *)



(** ** Format *)

(** C7. [doFormat] takes the two strings "vfat" and "auto", for which it
    wipes and then formats the device; any other string gets the
    invalid-argument error and no call at all is issued. *)
Theorem format_rejects_other_types f v fsType :
  fsType ≠ "vfat" -> fsType ≠ "auto" ->
  doFormat f v fsType = (- EINVAL, []) ∧
  snd (doFormat f v "vfat") =
    [EvWipeBlockDevice (mDevPath v); EvFormat Vfat (mDevPath v) 0] ∧
  snd (doFormat f v "auto") =
    [EvWipeBlockDevice (mDevPath v); EvFormat Vfat (mDevPath v) 0].
Proof.
  intros Hvfat Hauto. unfold doFormat, ignoring. split; [|split].
  - rewrite decide_False; [done|tauto].
  - rewrite decide_True by (by left). by case_decide.
  - rewrite decide_True by (by right). by case_decide.
Qed.

Lemma format_rejects_other_types_witness :
  doFormat format_ok sample_volume "ntfs" = (-22, []) ∧
  snd (doFormat format_ok sample_volume "vfat") =
    [EvWipeBlockDevice "/dev/block/vold/public:179:1";
     EvFormat Vfat "/dev/block/vold/public:179:1" 0] ∧
  snd (doFormat format_ok sample_volume "auto") =
    [EvWipeBlockDevice "/dev/block/vold/public:179:1";
     EvFormat Vfat "/dev/block/vold/public:179:1" 0].
Proof.
  apply (format_rejects_other_types format_ok sample_volume "ntfs");
    discriminate.
Defined.

(** A failed wipe does not keep the format from being issued. *)
Lemma format_after_failed_wipe v :
  doFormat {| f_wipe := -1; f_format := 0; f_errno := 0 |} v "vfat" =
  (OK, [EvWipeBlockDevice (mDevPath v); EvFormat Vfat (mDevPath v) 0]).
Proof. reflexivity. Qed.

(** ** The hook slots at unmount *)

Lemma property_get_insert_ne props key key' value default :
  key ≠ key' ->
  property_get (<[key := value]> props) key' default = property_get props key' default.
Proof. intros Hne. unfold property_get. by rewrite lookup_insert_ne. Qed.

(** Clearing a slot does not touch the keys of another slot. *)
Lemma clear_slot_lookup_ne sk pk tk stable props key :
  key ≠ sk -> key ≠ pk -> key ≠ tk ->
  clear_slot sk pk tk stable props !! key = props !! key.
Proof.
  intros Hsk Hpk Htk. unfold clear_slot, property_set.
  case_decide; [|done]. by rewrite !lookup_insert_ne.
Qed.

Lemma clear_slot_get_ne sk pk tk stable props key default :
  key ≠ sk -> key ≠ pk -> key ≠ tk ->
  property_get (clear_slot sk pk tk stable props) key default =
  property_get props key default.
Proof.
  intros Hsk Hpk Htk. unfold property_get.
  by rewrite clear_slot_lookup_ne.
Qed.

(** The three keys of a slot after its clean-up block. *)
Lemma clear_slot_own sk pk tk stable props :
  sk ≠ pk -> sk ≠ tk -> pk ≠ tk ->
  let props' := clear_slot sk pk tk stable props in
  (property_get props sk "" = stable ∧
   props' !! pk = Some "" ∧ props' !! sk = Some "" ∧ props' !! tk = Some "0") ∨
  (property_get props sk "" ≠ stable ∧ props' = props).
Proof.
  intros Hsp Hst Hpt. cbv zeta. unfold clear_slot, property_set.
  case_decide; [left|by right]. split; [done|].
  by rewrite lookup_insert_eq, !lookup_insert_ne, !lookup_insert_eq,
    !lookup_insert_ne, !lookup_insert_eq by done.
Qed.

(** C4. At unmount each of the three hook slots is reset to idle (empty
    path, empty storage name, flag "0") when its stored storage name equals
    the stable name of the volume, and is left as it was when the stored
    storage name differs. *)
Theorem unmount_clears_own_slots u v props h :
  let r := doUnmount u v props in
  (property_get props (storage_key h) "" = stableName v ∧
   slot (r_props r) h = idle_slot ∧ claimed (r_props r) h = false) ∨
  (property_get props (storage_key h) "" ≠ stableName v ∧
   slot (r_props r) h = slot props h).
Proof.
  unfold doUnmount. cbv zeta.
  destruct (if decide (mFusePid v > 0) then _ else _) as [v' tr] eqn:Hreap.
  assert (stableName (set_paths "" "" "" "" v') = stableName v) as ->.
  { by case_decide; simplify_eq. }
  cbn [r_props]. unfold slot, claimed, property_get_bool.
  set (s := stableName v).
  destruct h; cbn [path_key storage_key trigger_key].
  - rewrite !(clear_slot_lookup_ne "sys.cust.storage"),
      !(clear_slot_lookup_ne "sys.startup.storage"),
      !(clear_slot_get_ne "sys.cust.storage"),
      !(clear_slot_get_ne "sys.startup.storage") by done.
    destruct (clear_slot_own "sys.update.storage" "sys.update.path"
                "sys.update.trigger" s props) as [(? & Hp & Hs & Ht)|[? ->]];
      try done; [left|by right].
    split; [done|]. rewrite Hp, Hs. unfold property_get. by rewrite Ht.
  - rewrite !(clear_slot_lookup_ne "sys.cust.storage"),
      !(clear_slot_get_ne "sys.cust.storage") by done.
    rewrite <- (clear_slot_get_ne "sys.update.storage" "sys.update.path"
                  "sys.update.trigger" s props "sys.startup.storage") by done.
    rewrite <- !(clear_slot_lookup_ne "sys.update.storage" "sys.update.path"
                   "sys.update.trigger" s props) by done.
    set (props1 := clear_slot "sys.update.storage" _ _ _ _).
    destruct (clear_slot_own "sys.startup.storage" "sys.startup.path"
                "sys.startup.trigger" s props1) as [(? & Hp & Hs & Ht)|[? ->]];
      try done; [left|by right].
    split; [done|]. rewrite Hp, Hs. unfold property_get. by rewrite Ht.
  - set (props2 := clear_slot "sys.startup.storage" _ _ _ _).
    assert (property_get props "sys.cust.storage" "" =
            property_get props2 "sys.cust.storage" "") as ->.
    { subst props2. by rewrite !clear_slot_get_ne. }
    assert (∀ key, key ≠ "sys.update.storage" -> key ≠ "sys.update.path" ->
                   key ≠ "sys.update.trigger" -> key ≠ "sys.startup.storage" ->
                   key ≠ "sys.startup.path" -> key ≠ "sys.startup.trigger" ->
                   props !! key = props2 !! key) as Hsame.
    { intros key ? ? ? ? ? ?. subst props2. by rewrite !clear_slot_lookup_ne. }
    rewrite (Hsame "sys.cust.path"), (Hsame "sys.cust.storage"),
      (Hsame "sys.cust.trigger") by done.
    destruct (clear_slot_own "sys.cust.storage" "sys.cust.path"
                "sys.cust.trigger" s props2) as [(? & Hp & Hs & Ht)|[? ->]];
      try done; [left|by right].
    split; [done|]. rewrite Hp, Hs. unfold property_get. by rewrite Ht.
Qed.

(** ** Teardown *)




(** ** The post-mount hooks *)

(** The three hard-wired trigger blocks are the uniform loop of the
    specification run over update, startup, cust. *)
Lemma run_hooks_refines o v props :
  run_hooks o v props =
  spec_eval_hooks (present o) (mount_stable o v) (mRawPath (mounting_volume o v))
                  props hook_order props.
Proof.
  unfold run_hooks, update_block, startup_block, cust_block, hook_order.
  cbn [spec_eval_hooks trigger_file path_key storage_key trigger_key].
  unfold claimed, present. cbn [trigger_key]. cbv zeta.
  set (raw := mRawPath (mounting_volume o v)).
  destruct (property_get_bool props "sys.update.trigger" false),
    (property_get_bool props "sys.startup.trigger" false),
    (property_get_bool props "sys.cust.trigger" false);
    repeat (case_decide; [rewrite ?bool_decide_eq_true_2 by done
                         |rewrite ?bool_decide_eq_false_2 by done]);
    try reflexivity.
  all: f_equal; unfold property_set; f_equal; by apply insert_insert_ne.
Qed.

(** The staging tests a directory for reading and searching, a hook tests a
    file for existence: the two kinds of [access] are told apart. *)
Lemma asec_not_hook_access e : is_asec e = true -> is_hook_access e = false.
Proof.
  destruct e; try done. cbn. intros Hmode%bool_decide_eq_true. by subst.
Qed.

(** C8. In a mount that gets as far as the hooks, the hooks are evaluated
    in the order update, startup, cust as the specification words it: a
    hook whose slot is claimed is skipped and the next one is looked at; the
    first hook whose slot is idle and whose trigger file is there gets its
    slot populated (path, storage name = stable name, flag "1") and ends
    the evaluation; a hook whose slot is idle and whose file is absent
    hands over to the next one.  The trigger-file tests in the trace and
    the property store after the mount are those of that evaluation. *)
Theorem hooks_evaluated_in_order o fuel v props :
  reaches_hooks o v ->
  let r := doMount o fuel v props in
  let stable := mount_stable o v in
  let spec := spec_eval_hooks (present o) stable ("/mnt/media_rw/" +:+ stable)
                              props [Update; Startup; Cust] props in
  r_props r = fst spec ∧
  List.filter is_hook_access (r_trace r) = snd spec.
Proof.
  intros Hreach. cbv zeta.
  destruct (doMount_at_hooks o fuel v props Hreach) as (fs & _ & ->).
  rewrite doMount_spawn_props.
  rewrite doMount_spawn_filter by first [apply asec_not_hook_access | by intros []].
  rewrite List.filter_app, calls_before_hooks_filter by (by intros []).
  rewrite (filter_included is_hook_access is_hook_access)
    by first [apply run_hooks_kind | done].
  by rewrite run_hooks_refines.
Qed.

(** The card with the start-up script, mounted while another volume holds
    the update slot: the update hook is skipped without a look at its file,
    the startup hook fires, the cust hook is not looked at. *)
Lemma hooks_evaluated_in_order_witness :
  let r := doMount startup_card 0 sample_volume update_claimed_elsewhere in
  slot (r_props r) Update = slot update_claimed_elsewhere Update ∧
  slot (r_props r) Startup =
    claimed_slot "/mnt/media_rw/ABCD-1234/startup/start_up.sh" "ABCD-1234" ∧
  slot (r_props r) Cust = (None, None, None) ∧
  List.filter is_hook_access (r_trace r) =
    [EvAccess "/mnt/media_rw/ABCD-1234/startup/start_up.sh" F_OK].
Proof.
  assert (reaches_hooks startup_card sample_volume) as Hreach.
  { split; [by left|]. split; [by repeat constructor|]. right. by split. }
  destruct (hooks_evaluated_in_order startup_card 0 sample_volume
              update_claimed_elsewhere Hreach) as [Hprops Htrace].
  cbv zeta. rewrite Hprops, Htrace. by vm_compute.
Defined.

(** ** The native mount *)

(** A failed vfat mount ends the call with the I/O error before any hook is
    looked at. *)
Lemma vfat_mount_failure_aborts o fuel v props :
  supported o -> probed o = Some Vfat -> dirs_prepared o v -> o_mount o Vfat ≠ 0 ->
  let r := doMount o fuel v props in
  r_outcome r = Returned (- EIO) ∧ r_props r = props ∧
  List.filter is_hook_access (r_trace r) = [].
Proof.
  intros Hsup Hprobe Hdirs Hmount. cbv zeta.
  destruct (doMount_paths o fuel v props)
    as [[Hn _]|[(_ & Hp & _)|[(_ & _ & Hd & _)|[(_ & _ & _ & _ & ->)|
        ((_ & _ & Hnat) & _)]]]]; try done; try congruence.
  - cbn [r_outcome r_props r_trace]. repeat split.
    apply calls_before_hooks_filter. by intros [].
  - destruct Hnat as [Hq|[_ Hq]]; congruence.
Qed.

(** C1 (where the code departs from it). On an ntfs disk whose native
    mount fails, the call does not stop: the three trigger files are looked
    for and the call returns success. *)
Theorem ntfs_mount_failure_is_not_fatal :
  let r := doMount ntfs_mount_failure 0 sample_volume ∅ in
  probed ntfs_mount_failure = Some Ntfs ∧
  o_mount ntfs_mount_failure Ntfs ≠ 0 ∧
  r_outcome r = Returned OK ∧
  List.filter is_native_mount (r_trace r) =
    [EvMount Ntfs "/dev/block/vold/public:179:1" "/mnt/media_rw/ABCD-1234"
             false false false AID_MEDIA_RW AID_MEDIA_RW mask_0007 true] ∧
  List.filter is_hook_access (r_trace r) =
    [EvAccess "/mnt/media_rw/ABCD-1234/OTA/update.zip" F_OK;
     EvAccess "/mnt/media_rw/ABCD-1234/startup/start_up.sh" F_OK;
     EvAccess "/mnt/media_rw/ABCD-1234/cust/cust_update.zip" F_OK].
Proof. by vm_compute. Qed.

(** * Further properties *)

(** ** The order of the calls of a mount *)

Lemma asec_phase e : is_asec e = true -> phase e = 8%nat.
Proof.
  destruct e; try done. cbn. intros Hmode%bool_decide_eq_true. by subst.
Qed.

Lemma hook_access_phase e : is_hook_access e = true -> phase e = 7%nat.
Proof.
  destruct e; try done. cbn. intros Hmode%bool_decide_eq_true. by subst.
Qed.

Lemma spawn_phase e : is_spawn e = true -> phase e = 9%nat.
Proof. by destruct e. Qed.

Lemma prepare_dir_phase e : is_prepare_dir e = true -> phase e = 5%nat.
Proof. by destruct e. Qed.

(** Closes the side goals about the phases of one segment. *)
Ltac segment_phases :=
  first
    [ done
    | by repeat constructor
    | by left
    | right; by eexists _, _
    | unfold probe_calls; case_decide; by repeat constructor
    | eapply Forall_impl;
      [eassumption
      |first [apply prepare_dir_phase | apply asec_phase | apply spawn_phase]]
    | eapply Forall_impl; [apply run_hooks_kind | apply hook_access_phase] ].

(** Every mount trace is made of eight segments, one per step, in the
    order of the steps; a mount that stops early has the later segments
    empty. *)
Lemma doMount_shape o fuel v props :
  ∃ probe paths dirs mnt hooks staging spawn,
    r_trace (doMount o fuel v props) =
      snd (readMetadata o v) ++ probe ++ paths ++ dirs ++ mnt ++ hooks ++
      staging ++ spawn ∧
    Forall (λ e, phase e = 2%nat) probe ∧
    (paths = [] ∨ ∃ internal public, paths = [EvSetInternalPath internal; EvSetPath public]) ∧
    Forall (λ e, phase e = 5%nat) dirs ∧
    Forall (λ e, phase e = 6%nat) mnt ∧
    Forall (λ e, phase e = 7%nat) hooks ∧
    Forall (λ e, phase e = 8%nat) staging ∧
    Forall (λ e, phase e = 9%nat) spawn.
Proof.
  destruct (doMount_paths o fuel v props)
    as [[_ ->]|[(_ & _ & ->)|[(_ & _ & _ & dirs & Hdirs & ->)|
        [(_ & _ & _ & _ & ->)|(_ & fs & _ & ->)]]]]; cbn [r_trace].
  - exists [], [], [], [], [], [], []. rewrite !app_nil_r. by auto 10.
  - exists (probe_calls o v), [], [], [], [], [], []. rewrite !app_nil_r.
    repeat split; segment_phases.
  - exists (probe_calls o v), (path_calls o v), dirs, [], [], [], [].
    unfold calls_before_mount. fold (path_calls o v).
    rewrite !app_nil_r, <- !(assoc_L (++)).
    split; [reflexivity|]. repeat split; segment_phases.
  - exists (probe_calls o v), (path_calls o v),
      (map (λ p, EvPrepareDir p mode_0700 AID_ROOT AID_ROOT)
           (session_paths (mounting_volume o v))),
      [EvMount Vfat (mDevPath v) (mRawPath (mounting_volume o v)) false false false
               AID_MEDIA_RW AID_MEDIA_RW mask_0007 true], [], [], [].
    unfold calls_before_hooks, calls_before_mount. fold (path_calls o v).
    rewrite !app_nil_r, <- !(assoc_L (++)).
    split; [reflexivity|]. repeat split; segment_phases.
  - destruct (doMount_spawn_trace o fuel (mounting_volume o v) (mount_stable o v)
                (fst (run_hooks o v props))
                (calls_before_hooks o v fs ++ snd (run_hooks o v props)))
      as (staging & spawn & -> & Hst & Hsp).
    exists (probe_calls o v), (path_calls o v),
      (map (λ p, EvPrepareDir p mode_0700 AID_ROOT AID_ROOT)
           (session_paths (mounting_volume o v))),
      [EvMount fs (mDevPath v) (mRawPath (mounting_volume o v)) false false false
               AID_MEDIA_RW AID_MEDIA_RW mask_0007 true],
      (snd (run_hooks o v props)), staging, spawn.
    unfold calls_before_hooks, calls_before_mount. fold (path_calls o v).
    rewrite <- !(assoc_L (++)).
    split; [reflexivity|]. repeat split; segment_phases.
Qed.

Lemma phase_segment_sorted (l : list event) (k : nat) :
  Forall (λ e, phase e = k) l -> StronglySorted le (phase <$> l).
Proof.
  induction 1 as [|e l He Hl IH]; cbn; constructor; [done|].
  apply Forall_fmap. eapply Forall_impl; [exact Hl|]. cbn. intros e' ->. lia.
Qed.

(** A sorted list of phases stays sorted when a segment of one later phase
    is appended. *)
Lemma phase_sorted_app (l1 l2 : list event) (k k' : nat) :
  (k <= k')%nat ->
  StronglySorted le (phase <$> l1) ∧ Forall (λ e, (phase e <= k)%nat) l1 ->
  Forall (λ e, phase e = k') l2 ->
  StronglySorted le (phase <$> (l1 ++ l2)) ∧
  Forall (λ e, (phase e <= k')%nat) (l1 ++ l2).
Proof.
  intros Hk [Hsorted Hbound] Hseg. split.
  - rewrite fmap_app. apply StronglySorted_app_2.
    + intros x1 x2 (e1 & -> & He1)%list_elem_of_fmap (e2 & -> & He2)%list_elem_of_fmap.
      rewrite Forall_forall in Hbound, Hseg.
      specialize (Hbound e1 He1). specialize (Hseg e2 He2). lia.
    + done.
    + by eapply phase_segment_sorted.
  - apply Forall_app. split.
    + eapply Forall_impl; [exact Hbound|]. cbn. intros; lia.
    + eapply Forall_impl; [exact Hseg|]. cbn. intros; lia.
Qed.

(** X1. Within one mount call the external calls go out in the order of
    the steps (metadata read, notifications, checks, internal path,
    user-facing path, directories, native mount, trigger-file tests, secure
    staging, spawn and readiness): no call of an earlier step follows a
    call of a later step, however the mount ends. *)
Theorem mount_calls_in_step_order o fuel v props :
  StronglySorted le (phase <$> r_trace (doMount o fuel v props)).
Proof.
  destruct (doMount_shape o fuel v props)
    as (probe & paths & dirs & mnt & hooks & staging & spawn & -> &
        Hprobe & Hpaths & Hdirs & Hmnt & Hhooks & Hstaging & Hspawn).
  assert (StronglySorted le (phase <$> snd (readMetadata o v)) ∧
          Forall (λ e, (phase e <= 1)%nat) (snd (readMetadata o v))) as H0.
  { cbn. split; repeat constructor; lia. }
  pose proof (phase_sorted_app _ probe 1 2 ltac:(lia) H0 Hprobe) as H1.
  assert (StronglySorted le (phase <$> ((snd (readMetadata o v) ++ probe) ++ paths)) ∧
          Forall (λ e, (phase e <= 4)%nat) ((snd (readMetadata o v) ++ probe) ++ paths))
    as H2.
  { destruct Hpaths as [->|(a & b & ->)].
    - rewrite app_nil_r. destruct H1 as [Hs Hb]. split; [done|].
      eapply Forall_impl; [exact Hb|]. cbn. intros; lia.
    - change [EvSetInternalPath a; EvSetPath b]
        with ([EvSetInternalPath a] ++ [EvSetPath b]).
      rewrite (assoc_L (++)).
      apply (phase_sorted_app _ _ 3 4); [lia| |by repeat constructor].
      apply (phase_sorted_app _ _ 2 3); [lia|done|by repeat constructor]. }
  pose proof (phase_sorted_app _ dirs 4 5 ltac:(lia) H2 Hdirs) as H3.
  pose proof (phase_sorted_app _ mnt 5 6 ltac:(lia) H3 Hmnt) as H4.
  pose proof (phase_sorted_app _ hooks 6 7 ltac:(lia) H4 Hhooks) as H5.
  pose proof (phase_sorted_app _ staging 7 8 ltac:(lia) H5 Hstaging) as H6.
  pose proof (phase_sorted_app _ spawn 8 9 ltac:(lia) H6 Hspawn) as [H7 _].
  by rewrite <- !(assoc_L (++)) in H7.
Qed.

(** ** Metadata and notifications *)

Lemma filter_phase_excluded (p : event -> bool) (l : list event) (k : nat) :
  Forall (λ e, phase e = k) l -> (∀ e, phase e = k -> p e = false) ->
  List.filter p l = [].
Proof.
  intros Hl Hp. induction Hl as [|e l He _ IH]; [done|].
  cbn. by rewrite (Hp e He).
Qed.

(** A class of calls that belongs to none of the steps after the metadata
    read is found in the first four calls only. *)
Lemma doMount_filter_metadata (p : event -> bool) o fuel v props :
  (∀ e, (2 <= phase e)%nat -> p e = false) ->
  List.filter p (r_trace (doMount o fuel v props)) =
  List.filter p (snd (readMetadata o v)).
Proof.
  intros Hp.
  destruct (doMount_shape o fuel v props)
    as (probe & paths & dirs & mnt & hooks & staging & spawn & -> &
        Hprobe & Hpaths & Hdirs & Hmnt & Hhooks & Hstaging & Hspawn).
  rewrite !List.filter_app.
  rewrite (filter_phase_excluded p probe 2), (filter_phase_excluded p dirs 5),
    (filter_phase_excluded p mnt 6), (filter_phase_excluded p hooks 7),
    (filter_phase_excluded p staging 8), (filter_phase_excluded p spawn 9)
    by first [done | intros e He; apply Hp; lia].
  destruct Hpaths as [->|(a & b & ->)]; cbn [List.filter app];
    rewrite ?Hp by (cbn; lia); by rewrite !app_nil_r.
Qed.

(** X2. Every mount call starts with the metadata read on the device node
    and sends the three notifications (type, uuid, label, in that order)
    with the values the read left in the volume; it does so whatever the
    status of the read and however the mount ends, and sends no other
    notification. *)
Theorem mount_notifies_metadata o fuel v props :
  let r := doMount o fuel v props in
  take 4 (r_trace r) =
    [EvReadMetadataUntrusted (mDevPath v);
     EvNotify VolumeFsTypeChanged (mFsType (r_vol r));
     EvNotify VolumeFsUuidChanged (mFsUuid (r_vol r));
     EvNotify VolumeFsLabelChanged (mFsLabel (r_vol r))] ∧
  List.filter is_notify (r_trace r) =
    [EvNotify VolumeFsTypeChanged (o_fsType o);
     EvNotify VolumeFsUuidChanged (o_fsUuid o);
     EvNotify VolumeFsLabelChanged (o_fsLabel o)] ∧
  (mFsType (r_vol r), mFsUuid (r_vol r), mFsLabel (r_vol r)) =
    (o_fsType o, o_fsUuid o, o_fsLabel o).
Proof.
  cbv zeta.
  assert ((mFsType (r_vol (doMount o fuel v props)),
           mFsUuid (r_vol (doMount o fuel v props)),
           mFsLabel (r_vol (doMount o fuel v props))) =
          (o_fsType o, o_fsUuid o, o_fsLabel o)) as Hmeta.
  { destruct (doMount_vol o fuel v props) as [(_ & _ & ->)|(_ & _ & pid & ->)]; done. }
  split; [|split; [|done]].
  - injection Hmeta as -> -> ->.
    destruct (doMount_shape o fuel v props) as (? & ? & ? & ? & ? & ? & ? & -> & _).
    done.
  - rewrite doMount_filter_metadata; [done|].
    intros [] ?; cbn in *; try done; lia.
Qed.

(** ** Mounts that stop early *)

(** X3. A mount whose metadata names a type other than vfat and ntfs
    returns the I/O error right after the notifications: no checker, no
    directory preparation and no mount is called, and the paths, the
    process id and the property store are left as they were. *)
Theorem unsupported_type_is_rejected o fuel v props :
  ¬ supported o ->
  let r := doMount o fuel v props in
  r_outcome r = Returned (- EIO) ∧
  r_trace r =
    [EvReadMetadataUntrusted (mDevPath v);
     EvNotify VolumeFsTypeChanged (o_fsType o);
     EvNotify VolumeFsUuidChanged (o_fsUuid o);
     EvNotify VolumeFsLabelChanged (o_fsLabel o)] ∧
  r_props r = props ∧
  session_paths (r_vol r) = session_paths v ∧
  mFusePid (r_vol r) = mFusePid v.
Proof.
  intros Hn. cbv zeta.
  destruct (doMount_paths o fuel v props)
    as [[_ ->]|[(Hs & _)|[(Hs & _)|[(Hs & _)|((Hs & _) & _)]]]]; done.
Qed.

Lemma unsupported_type_is_rejected_witness :
  let r := doMount ext4_oracle 5 visible_volume update_claimed_elsewhere in
  r_outcome r = Returned (-5) ∧
  r_trace r =
    [EvReadMetadataUntrusted "/dev/block/vold/public:179:1";
     EvNotify VolumeFsTypeChanged "ext4";
     EvNotify VolumeFsUuidChanged "57f8f4bc";
     EvNotify VolumeFsLabelChanged ""] ∧
  r_props r = update_claimed_elsewhere ∧
  session_paths (r_vol r) = [""; ""; ""; ""] ∧
  mFusePid (r_vol r) = 0.
Proof.
  apply (unsupported_type_is_rejected ext4_oracle 5 visible_volume
           update_claimed_elsewhere).
  intros [Ht|Ht]; discriminate Ht.
Defined.

(** ** Directory preparation *)

(** The directories are prepared in order; the calls stop with the first
    one that fails. *)
Lemma prepare_dirs_prefix o paths :
  ∃ n, (n <= length paths)%nat ∧
    snd (prepare_dirs o paths) =
      map (λ p, EvPrepareDir p mode_0700 AID_ROOT AID_ROOT) (take n paths) ∧
    Forall (λ p, o_prepare_dir o p = 0) (take (pred n) paths) ∧
    (fst (prepare_dirs o paths) = true ->
     ∃ p, paths !! pred n = Some p ∧ o_prepare_dir o p ≠ 0 ∧ (0 < n)%nat).
Proof.
  induction paths as [|path paths (n & Hn & Htr & Hok & Hfail)].
  - exists 0%nat. cbn. repeat split; [lia|constructor|done].
  - cbn [prepare_dirs]. case_decide as Hp.
    + destruct (prepare_dirs o paths) as [failed tr]. cbn [fst snd] in *.
      exists (S n). cbn [length take map pred]. repeat split; [lia|by f_equal| |].
      * destruct n as [|n]; cbn; [constructor|]. by constructor.
      * intros Hf. destruct (Hfail Hf) as (p & Hlook & Hbad & Hpos).
        exists p. destruct n as [|n]; [lia|]. cbn. repeat split; [done|done|lia].
    + exists 1%nat. cbn. repeat split; [lia|constructor|].
      intros _. exists path. repeat split; [done|lia].
Qed.

(** The path of a mount on which a directory cannot be prepared. *)
Lemma doMount_dirs_failed o fuel v props :
  supported o -> probed o ≠ None -> ¬ dirs_prepared o v ->
  doMount o fuel v props =
  mkRun (Returned (- o_prepare_errno o)) (mounting_volume o v) props
        (calls_before_mount o v ++
         snd (prepare_dirs o (session_paths (mounting_volume o v)))).
Proof.
  intros Hsup Hprobe Hdirs. unfold doMount. cbn [readMetadata].
  change (stableName (set_metadata (o_fsType o) (o_fsUuid o) (o_fsLabel o) v))
    with (mount_stable o v).
  change (set_paths _ _ _ _ _) with (mounting_volume o v).
  change (mFsType (set_metadata (o_fsType o) (o_fsUuid o) (o_fsLabel o) v))
    with (o_fsType o).
  change (mDevPath (set_metadata (o_fsType o) (o_fsUuid o) (o_fsLabel o) v))
    with (mDevPath v).
  change (getMountFlags (mounting_volume o v)) with (getMountFlags v).
  change [mRawPath (mounting_volume o v); mFuseDefault (mounting_volume o v);
          mFuseRead (mounting_volume o v); mFuseWrite (mounting_volume o v)]
    with (session_paths (mounting_volume o v)).
  unfold calls_before_mount, probe_calls. cbn [readMetadata snd].
  rewrite decide_False by (destruct Hsup as [-> | ->]; intros [? ?]; congruence).
  pose proof (prepare_dirs_failed _ _ Hdirs) as Hfailed.
  destruct (prepare_dirs o (session_paths (mounting_volume o v))) as [failed dirs].
  cbn [fst snd] in *. subst failed.
  unfold probed in Hprobe.
  destruct (decide (o_check o Vfat = 0)); [|destruct (decide (o_check o Ntfs = 0))];
    cbn [fst snd]; [| |done]; by rewrite <- !(assoc_L (++)).
Qed.

Lemma filter_none (P : event -> Prop) (p : event -> bool) (l : list event) :
  Forall P l -> (∀ e, P e -> p e = false) -> List.filter p l = [].
Proof.
  intros Hl Hp. induction Hl as [|e l He _ IH]; [done|].
  cbn. by rewrite (Hp e He).
Qed.

Lemma calls_before_mount_phase o v :
  Forall (λ e, (phase e <= 4)%nat) (calls_before_mount o v).
Proof.
  unfold calls_before_mount, probe_calls. cbn [readMetadata snd].
  case_decide; repeat constructor; cbn; lia.
Qed.

(** The directory calls of a mount that got past the directories. *)
Lemma calls_before_hooks_dirs o v fs :
  List.filter is_prepare_dir (calls_before_hooks o v fs) =
  map (λ p, EvPrepareDir p mode_0700 AID_ROOT AID_ROOT)
      (session_paths (mounting_volume o v)).
Proof.
  unfold calls_before_hooks. rewrite !List.filter_app.
  rewrite (filter_none _ is_prepare_dir _ (calls_before_mount_phase o v))
    by (intros [] ?; cbn in *; first [done | lia]).
  done.
Qed.

(** X4. The directories of a mount are prepared in the order raw, default,
    read, write, each with mode 0700 and owner and group root whatever the
    flags of the volume; the calls form a prefix of that list, and every
    directory before the last one prepared was prepared with success. *)
Theorem directories_prepared_in_order o fuel v props :
  ∃ n, (n <= 4)%nat ∧
    List.filter is_prepare_dir (r_trace (doMount o fuel v props)) =
      map (λ p, EvPrepareDir p mode_0700 AID_ROOT AID_ROOT)
          (take n ["/mnt/media_rw/" +:+ mount_stable o v;
                   "/mnt/runtime/default/" +:+ mount_stable o v;
                   "/mnt/runtime/read/" +:+ mount_stable o v;
                   "/mnt/runtime/write/" +:+ mount_stable o v]) ∧
    Forall (λ p, o_prepare_dir o p = 0)
           (take (pred n) ["/mnt/media_rw/" +:+ mount_stable o v;
                           "/mnt/runtime/default/" +:+ mount_stable o v;
                           "/mnt/runtime/read/" +:+ mount_stable o v;
                           "/mnt/runtime/write/" +:+ mount_stable o v]).
Proof.
  change ["/mnt/media_rw/" +:+ mount_stable o v;
          "/mnt/runtime/default/" +:+ mount_stable o v;
          "/mnt/runtime/read/" +:+ mount_stable o v;
          "/mnt/runtime/write/" +:+ mount_stable o v]
    with (session_paths (mounting_volume o v)).
  destruct (doMount_paths o fuel v props)
    as [[_ ->]|[(_ & _ & ->)|[(Hs & Hp & Hd & _)|
        [(_ & _ & Hd & _ & ->)|((_ & Hd & _) & fs & _ & ->)]]]]; cbn [r_trace].
  - exists 0%nat. repeat split; [lia|constructor].
  - exists 0%nat. repeat split; [lia| |constructor].
    rewrite List.filter_app. unfold probe_calls. by case_decide.
  - rewrite (doMount_dirs_failed _ _ _ _ Hs Hp Hd). cbn [r_trace].
    destruct (prepare_dirs_prefix o (session_paths (mounting_volume o v)))
      as (n & Hn & Htr & Hok & _).
    exists n. split; [done|]. split; [|done].
    rewrite List.filter_app, Htr.
    rewrite (filter_none _ is_prepare_dir _ (calls_before_mount_phase o v))
      by (intros [] ?; cbn in *; first [done | lia]).
    cbn [app]. apply (filter_included is_prepare_dir is_prepare_dir); [|done].
    apply Forall_fmap, Forall_true. done.
  - exists 4%nat. split; [lia|]. split; [apply calls_before_hooks_dirs|].
    unfold dirs_prepared in Hd. by apply Forall_take.
  - exists 4%nat. split; [lia|]. split; [|unfold dirs_prepared in Hd; by apply Forall_take].
    rewrite doMount_spawn_filter by (by intros []).
    rewrite List.filter_app, calls_before_hooks_dirs.
    rewrite (filter_excluded is_prepare_dir is_hook_access)
      by first [apply run_hooks_kind | by intros []].
    by rewrite app_nil_r.
Qed.

(** X5. When one of the four directories cannot be prepared the mount
    returns minus the error number at once: nothing is mounted, no trigger
    file is looked for, nothing is spawned and the property store is
    untouched; the four paths stay set in the volume (nothing is rolled
    back), the last directory call is the one that failed, and an unmount
    of that volume issues the nine teardown calls on those paths and
    leaves the paths empty. *)
Theorem directory_failure_is_not_rolled_back o u fuel v props :
  supported o -> probed o ≠ None -> ¬ dirs_prepared o v ->
  let r := doMount o fuel v props in
  let n := doUnmount u (r_vol r) (r_props r) in
  r_outcome r = Returned (- o_prepare_errno o) ∧
  (∃ p, last (r_trace r) = Some (EvPrepareDir p mode_0700 AID_ROOT AID_ROOT) ∧
        o_prepare_dir o p ≠ 0) ∧
  List.filter (λ e, is_native_mount e || is_hook_access e || is_asec e || is_spawn e)
              (r_trace r) = [] ∧
  r_props r = props ∧
  all_populated (r_vol r) ∧
  mFusePid (r_vol r) = mFusePid v ∧
  r_trace n = reap_calls u v ++ teardown_of (mount_stable o v) ∧
  all_empty (r_vol n).
Proof.
  intros Hsup Hprobe Hdirs. cbv zeta.
  rewrite (doMount_dirs_failed _ _ _ _ Hsup Hprobe Hdirs).
  cbn [r_outcome r_trace r_props r_vol].
  split; [done|]. split; [|split; [|split; [done|split; [|split; [done|split]]]]].
  - destruct (prepare_dirs_prefix o (session_paths (mounting_volume o v)))
      as (n & Hn & Htr & _ & Hfail).
    destruct (Hfail (prepare_dirs_failed _ _ Hdirs)) as (p & Hlook & Hbad & Hpos).
    exists p. split; [|done]. rewrite Htr.
    destruct n as [|n]; [lia|]. cbn [pred] in Hlook.
    rewrite (take_S_r _ _ _ Hlook), map_app. cbn [map].
    by rewrite (assoc_L (++)), last_snoc.
  - rewrite List.filter_app.
    rewrite (filter_none _ _ _ (calls_before_mount_phase o v))
      by (intros [] ?; cbn in *; try done; try lia; case_bool_decide; lia).
    eapply filter_excluded; [apply prepare_dirs_kind|by intros []].
  - apply (mounting_volume_populated o v (mFusePid v)).
  - unfold doUnmount, reap_calls, ignoring, temp_failure_retry.
    change (mFusePid (mounting_volume o v)) with (mFusePid v).
    case_decide; cbn [r_trace]; [|done]. by rewrite <- !(assoc_L (++)).
  - unfold doUnmount. cbv zeta. case_decide; by repeat constructor.
Qed.

Lemma directory_failure_is_not_rolled_back_witness :
  let r := doMount dir_failure 0 visible_volume ∅ in
  let n := doUnmount failing_teardown (r_vol r) (r_props r) in
  r_outcome r = Returned (-13) ∧
  (∃ p, last (r_trace r) = Some (EvPrepareDir p mode_0700 AID_ROOT AID_ROOT) ∧
        o_prepare_dir dir_failure p ≠ 0) ∧
  List.filter (λ e, is_native_mount e || is_hook_access e || is_asec e || is_spawn e)
              (r_trace r) = [] ∧
  r_props r = ∅ ∧
  all_populated (r_vol r) ∧
  mFusePid (r_vol r) = 0 ∧
  r_trace n = teardown_of "public:179:1" ∧
  all_empty (r_vol n).
Proof.
  apply (directory_failure_is_not_rolled_back dir_failure failing_teardown 0
           visible_volume ∅).
  - by left.
  - done.
  - intros Hd. unfold dirs_prepared in Hd.
    apply Forall_cons_1 in Hd as [_ Hd]. apply Forall_cons_1 in Hd as [_ Hd].
    apply Forall_cons_1 in Hd as [Hd _]. discriminate Hd.
Defined.

(** ** Reported paths and the native mount *)

Lemma calls_before_mount_paths o v :
  List.filter is_set_path (calls_before_mount o v) = path_calls o v.
Proof.
  unfold calls_before_mount, probe_calls, path_calls. cbn [readMetadata snd].
  by case_decide.
Qed.

Lemma calls_before_hooks_paths o v fs :
  List.filter is_set_path (calls_before_hooks o v fs) = path_calls o v.
Proof.
  unfold calls_before_hooks. rewrite !List.filter_app, calls_before_mount_paths.
  cbn [List.filter map session_paths is_set_path app]. by rewrite app_nil_r.
Qed.

(** X6. A mount that gets past the probe reports the raw path
    "/mnt/media_rw/<stable name>" as the internal path, and as the
    user-facing path "/storage/<stable name>" when the volume is visible
    and the raw path otherwise; each is reported once, the internal path
    first. *)
Theorem mount_reports_paths o fuel v props :
  supported o -> probed o ≠ None ->
  List.filter is_set_path (r_trace (doMount o fuel v props)) =
    [EvSetInternalPath ("/mnt/media_rw/" +:+ mount_stable o v);
     EvSetPath (if decide (Z.land (getMountFlags v) kVisible = 0)
                then "/mnt/media_rw/" +:+ mount_stable o v
                else "/storage/" +:+ mount_stable o v)].
Proof.
  intros Hsup Hprobe.
  change (List.filter is_set_path (r_trace (doMount o fuel v props)) = path_calls o v).
  destruct (doMount_paths o fuel v props)
    as [[Hn _]|[(_ & Hp & _)|[(_ & _ & _ & dirs & Hdirs & ->)|
        [(_ & _ & _ & _ & ->)|(_ & fs & _ & ->)]]]]; try done; cbn [r_trace].
  - rewrite List.filter_app, calls_before_mount_paths.
    rewrite (filter_excluded is_set_path is_prepare_dir dirs) by first [done | by intros []].
    by rewrite app_nil_r.
  - apply calls_before_hooks_paths.
  - rewrite doMount_spawn_filter by (by intros []).
    rewrite List.filter_app, calls_before_hooks_paths.
    rewrite (filter_excluded is_set_path is_hook_access)
      by first [apply run_hooks_kind | by intros []].
    by rewrite app_nil_r.
Qed.

Lemma mount_reports_paths_witness :
  List.filter is_set_path (r_trace (doMount uuid_oracle 0 sample_volume ∅)) =
    [EvSetInternalPath "/mnt/media_rw/ABCD-1234"; EvSetPath "/mnt/media_rw/ABCD-1234"] ∧
  List.filter is_set_path (r_trace (doMount uuid_oracle 0 visible_volume ∅)) =
    [EvSetInternalPath "/mnt/media_rw/ABCD-1234"; EvSetPath "/storage/ABCD-1234"].
Proof.
  assert (supported uuid_oracle) as Hs by (by left).
  assert (probed uuid_oracle ≠ None) as Hp by done.
  split.
  - exact (mount_reports_paths uuid_oracle 0 sample_volume ∅ Hs Hp).
  - exact (mount_reports_paths uuid_oracle 0 visible_volume ∅ Hs Hp).
Defined.

Lemma calls_before_hooks_mount o v fs :
  List.filter is_native_mount (calls_before_hooks o v fs) =
  [EvMount fs (mDevPath v) ("/mnt/media_rw/" +:+ mount_stable o v) false false false
           AID_MEDIA_RW AID_MEDIA_RW mask_0007 true].
Proof.
  unfold calls_before_hooks. rewrite !List.filter_app.
  rewrite (filter_none _ is_native_mount _ (calls_before_mount_phase o v))
    by (intros [] ?; cbn in *; first [done | lia]).
  done.
Qed.

(** X7. A mount issues at most one native mount call.  It issues none when
    the type is unsupported, the probe fails or a directory cannot be
    prepared; otherwise it issues exactly one, through the family the probe
    settled on (whatever type the metadata named), from the device node
    onto the raw path, read-write, with owner and group media_rw and mask
    0007. *)
Theorem native_mount_follows_probe o fuel v props :
  let calls := List.filter is_native_mount (r_trace (doMount o fuel v props)) in
  (calls = [] ∧ (¬ supported o ∨ probed o = None ∨ ¬ dirs_prepared o v)) ∨
  (∃ fs, supported o ∧ probed o = Some fs ∧ dirs_prepared o v ∧
     calls = [EvMount fs (mDevPath v) ("/mnt/media_rw/" +:+ mount_stable o v)
                      false false false AID_MEDIA_RW AID_MEDIA_RW mask_0007 true]).
Proof.
  cbv zeta.
  destruct (doMount_paths o fuel v props)
    as [[Hn ->]|[(_ & Hp & ->)|[(_ & _ & Hd & dirs & Hdirs & ->)|
        [(Hs & Hp & Hd & _ & ->)|((Hs & Hd & _) & fs & Hp & ->)]]]]; cbn [r_trace].
  - left. by auto.
  - left. split; [|by auto]. rewrite List.filter_app. unfold probe_calls. by case_decide.
  - left. split; [|by auto]. rewrite List.filter_app.
    rewrite (filter_none _ is_native_mount _ (calls_before_mount_phase o v))
      by (intros [] ?; cbn in *; first [done | lia]).
    eapply filter_excluded; [exact Hdirs|by intros []].
  - right. exists Vfat. repeat (split; [done|]). apply calls_before_hooks_mount.
  - right. exists fs. repeat (split; [done|]).
    rewrite doMount_spawn_filter by (by intros []).
    rewrite List.filter_app, calls_before_hooks_mount.
    rewrite (filter_excluded is_native_mount is_hook_access)
      by first [apply run_hooks_kind | by intros []].
    done.
Qed.

(** ** Secure staging *)

(** The staging calls of a mount: those of [initAsecStage] when the mount
    gets as far as the hooks on a primary volume. *)
Lemma doMount_staging o fuel v props :
  reaches_hooks o v ->
  List.filter is_asec (r_trace (doMount o fuel v props)) =
  if decide (Z.land (getMountFlags v) kPrimary = 0) then []
  else snd (initAsecStage o (mounting_volume o v)).
Proof.
  intros Hreach.
  destruct (doMount_at_hooks o fuel v props Hreach) as (fs & _ & ->).
  unfold doMount_spawn.
  change (getMountFlags (mounting_volume o v)) with (getMountFlags v).
  set (front := calls_before_hooks o v fs ++ snd (run_hooks o v props)).
  assert (List.filter is_asec front = []) as Hfront.
  { subst front. rewrite List.filter_app.
    rewrite (filter_excluded is_asec is_setup), (filter_excluded is_asec is_hook_access);
      first [done | apply run_hooks_kind | apply calls_before_hooks_kind | by intros [] |
             idtac].
    intros e He. destruct (is_asec e) eqn:Ha; [|done].
    by rewrite (asec_not_hook_access e Ha) in He. }
  assert (List.filter is_asec (snd (initAsecStage o (mounting_volume o v))) =
          snd (initAsecStage o (mounting_volume o v))) as Hst.
  { apply (filter_included is_asec is_asec); [apply initAsecStage_kind|done]. }
  destruct (wait_for_fuse _ _ _ _ _) as [out polls] eqn:Hw.
  assert (List.filter is_asec polls = []) as Hpolls.
  { pose proof (wait_for_fuse_kind o (o_device_before o)
                  (mFuseWrite (set_fusePid (o_fork o) (mounting_volume o v))) fuel 0) as Hk.
    rewrite Hw in Hk. eapply filter_excluded; [exact Hk|by intros []]. }
  repeat case_decide; try destruct (o_execl o); cbn [r_trace];
    rewrite ?List.filter_app, ?Hfront, ?Hst, ?Hpolls; cbn [List.filter is_asec app];
    by rewrite ?app_nil_r.
Qed.

(** X8. The secure staging is best effort.  On a primary volume that is
    not visible, a mount that gets as far as the hooks returns success
    whatever the staging calls answer, also when [initAsecStage] itself
    reports an error; the staging calls are the last calls of the mount.
    On a volume that is not primary no staging call is ever issued. *)
Theorem staging_failure_is_not_fatal o fuel v props :
  reaches_hooks o v ->
  Z.land (getMountFlags v) kVisible = 0 ->
  let r := doMount o fuel v props in
  let staging := snd (initAsecStage o (mounting_volume o v)) in
  r_outcome r = Returned OK ∧
  ((Z.land (getMountFlags v) kPrimary = 0 ∧ List.filter is_asec (r_trace r) = []) ∨
   (Z.land (getMountFlags v) kPrimary ≠ 0 ∧
    List.filter is_asec (r_trace r) = staging ∧
    drop (length (r_trace r) - length staging) (r_trace r) = staging)).
Proof.
  intros Hreach Hvis. cbv zeta. split.
  - destruct (doMount_at_hooks o fuel v props Hreach) as (fs & _ & ->).
    by rewrite doMount_spawn_hidden.
  - pose proof (doMount_staging o fuel v props Hreach) as Hst.
    destruct (decide (Z.land (getMountFlags v) kPrimary = 0)) as [Hp|Hp];
      [by left|right].
    split; [done|]. split; [done|].
    destruct (doMount_at_hooks o fuel v props Hreach) as (fs & _ & ->).
    rewrite doMount_spawn_hidden by done. cbn [r_trace].
    change (getMountFlags (mounting_volume o v)) with (getMountFlags v).
    rewrite decide_False by done.
    rewrite length_app, Nat.add_sub. apply drop_app_length.
Qed.

(** The card on which the staging directory cannot be made: the staging
    reports the error, the mount returns success. *)
Lemma staging_failure_is_not_fatal_witness :
  let r := doMount staging_failure 0 primary_volume ∅ in
  fst (initAsecStage staging_failure (mounting_volume staging_failure primary_volume)) = -30 ∧
  r_outcome r = Returned OK ∧
  List.filter is_asec (r_trace r) =
    [EvAccess "/mnt/media_rw/public:179:1/android_secure" 5;
     EvAccess "/mnt/media_rw/public:179:1/.android_secure" 5;
     EvRename "/mnt/media_rw/public:179:1/android_secure"
              "/mnt/media_rw/public:179:1/.android_secure";
     EvMkdir "/mnt/media_rw/public:179:1/.android_secure" 448;
     EvMkdir "/mnt/media_rw/public:179:1/.android_secure" 448].
Proof.
  assert (reaches_hooks staging_failure primary_volume) as Hreach.
  { split; [by left|]. split; [by repeat constructor|]. right. by split. }
  assert (Z.land (getMountFlags primary_volume) kVisible = 0) as Hvis by done.
  destruct (staging_failure_is_not_fatal staging_failure 0 primary_volume ∅ Hreach Hvis)
    as (Hout & [[Hp _]|(_ & Hst & _)]); [discriminate Hp|].
  split; [done|]. split; [exact Hout|]. exact Hst.
Defined.
